(** * Project and project-membership resources: a shallow embedding

  The Go sources embedded here are [pkg/projects/project.go] (the
  [project] resource: schema, validation, diff suppression, pack/unpack
  and the four CRUD closures) and the project-group membership resource
  ([projectGroupResource]: read, upsert, delete, import).

  Go's [int] is modelled as [Z] together with its two's-complement
  wrap-around, Go strings as [string] (sequences of bytes), the
  schema-typed [schema.ResourceData] as records, and the resty client as
  an oracle that answers each request from the history of requests. *)

From Stdlib Require Import ZArith List String Ascii Bool Lia.
Import ListNotations.

Local Open Scope string_scope.
Local Open Scope Z_scope.

(** ** Go's [int] *)

Module GoInt.

(** [strconv.IntSize]: the width of [int] is fixed by the platform. *)
Inductive Arch := Arch32 | Arch64.

Definition intSize (a : Arch) : Z :=
  match a with Arch32 => 32 | Arch64 => 64 end.

Definition modulus (a : Arch) : Z := 2 ^ intSize a.
Definition half (a : Arch) : Z := 2 ^ (intSize a - 1).
Definition minInt (a : Arch) : Z := - half a.
Definition maxInt (a : Arch) : Z := half a - 1.

Definition in_range (a : Arch) (z : Z) : bool :=
  (minInt a <=? z) && (z <=? maxInt a).

(** The value an [int] holds after an arithmetic result [z]. *)
Definition wrap (a : Arch) (z : Z) : Z :=
  (z + half a) mod modulus a - half a.

Definition mul (a : Arch) (x y : Z) : Z := wrap a (x * y).

(** Go's [/] on [int] truncates toward zero. *)
Definition div (x y : Z) : Z := Z.quot x y.

End GoInt.
Import GoInt.

(** ** [strconv.Atoi] *)

Module Strconv.

Inductive NumError := ErrSyntax | ErrRange.

Definition digit (c : ascii) : option Z :=
  let n := Z.of_nat (nat_of_ascii c) in
  if (48 <=? n) && (n <=? 57) then Some (n - 48) else None.

Fixpoint digits (acc : Z) (s : string) : option Z :=
  match s with
  | EmptyString => Some acc
  | String c rest =>
      match digit c with
      | Some d => digits (acc * 10 + d) rest
      | None => None
      end
  end.

Definition is_sign (c : ascii) : bool :=
  Ascii.eqb c "-"%char || Ascii.eqb c "+"%char.

(** Base 10, optional sign, at least one digit, no underscores; a value
    outside [int] is a range error.  Either error makes the caller's
    [err != nil] test succeed. *)
Definition Atoi (a : Arch) (s : string) : Z + NumError :=
  match s with
  | EmptyString => inr ErrSyntax
  | String c rest =>
      let body := if is_sign c then rest else s in
      match body with
      | EmptyString => inr ErrSyntax
      | _ =>
          match digits 0 body with
          | None => inr ErrSyntax
          | Some n =>
              let v := if Ascii.eqb c "-"%char then - n else n in
              if in_range a v then inl v else inr ErrRange
          end
      end
  end.

End Strconv.
Import Strconv.

(** ** The fragment of Go's [regexp] used by the schema *)

Module Regexp.

(** Parsed patterns: [^], [$], a bracket expression given by its ranges,
    concatenation and the counted repetition [r{min,max}]. *)
Inductive Regexp :=
| BeginText
| EndText
| CharClass (ranges : list (ascii * ascii))
| Concat (r1 r2 : Regexp)
| Repeat (min max : nat) (r : Regexp).

Definition in_class (ranges : list (ascii * ascii)) (c : ascii) : bool :=
  existsb (fun r => (nat_of_ascii (fst r) <=? nat_of_ascii c)%nat
                    && (nat_of_ascii c <=? nat_of_ascii (snd r))%nat) ranges.

(** A position in the text: the offset reached and what is left to read. *)
Definition Pos : Type := nat * string.

Fixpoint iterate (step : Pos -> list Pos) (n : nat) (ps : list Pos) : list Pos :=
  match n with
  | O => ps
  | S n' => iterate step n' (flat_map step ps)
  end.

Fixpoint upto (step : Pos -> list Pos) (extra : nat) (ps : list Pos) : list Pos :=
  match extra with
  | O => ps
  | S k => ps ++ upto step k (flat_map step ps)
  end.

(** All positions at which a match of [r] that starts at [p] can end. *)
Fixpoint ends (r : Regexp) (p : Pos) : list Pos :=
  match r with
  | BeginText => if Nat.eqb (fst p) 0 then [p] else []
  | EndText => match snd p with EmptyString => [p] | String _ _ => [] end
  | CharClass ranges =>
      match snd p with
      | String c rest => if in_class ranges c then [(S (fst p), rest)] else []
      | EmptyString => []
      end
  | Concat r1 r2 => flat_map (ends r2) (ends r1 p)
  | Repeat lo hi r1 => upto (ends r1) (hi - lo) (iterate (ends r1) lo [p])
  end.

Fixpoint starts (offset : nat) (s : string) : list Pos :=
  (offset, s) ::
  match s with
  | EmptyString => []
  | String _ rest => starts (S offset) rest
  end.

Definition nonempty {A : Type} (l : list A) : bool :=
  match l with [] => false | _ :: _ => true end.

(** [Regexp.MatchString] of Go: some substring of [s] matches [r]. *)
Definition MatchString (r : Regexp) (s : string) : bool :=
  existsb (fun p => nonempty (ends r p)) (starts 0 s).

End Regexp.
Import Regexp.

(** ** [strings.SplitN] for a non-empty separator *)

Module Strings.

Fixpoint drop (n : nat) (s : string) : string :=
  match n, s with
  | O, _ => s
  | S _, EmptyString => EmptyString
  | S k, String _ rest => drop k rest
  end.

(** [strings.Index] together with the two slices taken around the hit:
    [Some (s[:m], s[m+len(sep):])] for the first occurrence [m]. *)
Fixpoint cut (sep s : string) : option (string * string) :=
  if String.prefix sep s then Some (EmptyString, drop (String.length sep) s)
  else match s with
       | EmptyString => None
       | String c rest =>
           match cut sep rest with
           | Some (a, b) => Some (String c a, b)
           | None => None
           end
       end.

(** The loop of [genSplit]: at most [k] cuts, then the remainder. *)
Fixpoint genSplit (k : nat) (sep s : string) : list string :=
  match k with
  | O => [s]
  | S k' =>
      match cut sep s with
      | None => [s]
      | Some (a, b) => a :: genSplit k' sep b
      end
  end.

Definition SplitN (s sep : string) (n : Z) : list string :=
  if n =? 0 then []
  else
    let pieces := if n <? 0 then S (String.length s) else Z.to_nat n in
    genSplit (pieces - 1) sep s.

End Strings.
Import Strings.

(** ** The resty client *)

Module Resty.

Inductive Method := GET | POST | PUT | DELETE | HEAD.

(** A request as the closures build it: verb, URL (or URL template), the
    path parameters given to [SetPathParams] and what [SetBody] received,
    if it was called.  [B] is the type of bodies. *)
Record Request (B : Type) := mkRequest {
  method : Method;
  url : string;
  pathParams : list (string * string);
  body : option B
}.
Arguments mkRequest {B}.
Arguments method {B}.
Arguments url {B}.
Arguments pathParams {B}.
Arguments body {B}.

(** What a verb method returns: the response, or the [err] of a transport
    or deserialization failure. *)
Inductive Outcome (R : Type) :=
| Done (resp : R)
| Failed (err : string).
Arguments Done {R}.
Arguments Failed {R}.

(** Every call through the client is recorded; the log is the only state
    the closures share with the remote side. *)
Definition Session (B A : Type) : Type := list (Request B) -> A * list (Request B).

Definition ret {B A : Type} (a : A) : Session B A := fun log => (a, log).

Definition bind {B A A' : Type} (m : Session B A) (k : A -> Session B A')
  : Session B A' :=
  fun log => let (a, log') := m log in k a log'.

End Resty.
Import Resty.

Notation "x <- m ;; k" := (bind m (fun x => k))
  (at level 61, m at next level, right associativity).

(** [diag.Diagnostics]: [nil] is the empty list, [diag.FromErr] a single
    entry carrying the error's text. *)
Definition Diagnostics : Type := list string.
Definition FromErr (err : string) : Diagnostics := [err].

(** ** The [project] resource ([pkg/projects/project.go]) *)

Module Projects.

Record AdminPrivileges := mkAdminPrivileges {
  ManageMembers : bool;
  ManageResources : bool;
  IndexResources : bool
}.

Record Project := mkProject {
  Key : string;
  DisplayName : string;
  Description : string;
  AdminPrivilegesPtr : option AdminPrivileges;
  StorageQuota : Z;
  SoftLimit : bool;
  QuotaEmailNotification : bool
}.

(** [Project{}] *)
Definition zeroProject : Project := mkProject "" "" "" None 0 false false.

Definition Id (p : Project) : string := Key p.

Definition projectsUrl : string := "/access/api/v1/projects/".

(** One element of the [admin_privileges] set; its three attributes are
    [TypeBool] and [Required] in [projectSchema], so the three type
    assertions of [unpackProject] succeed. *)
Record PrivilegesBlock := mkBlock {
  manage_members : bool;
  manage_resources : bool;
  index_resources : bool
}.

(** [schema.ResourceData] typed by [projectSchema].  [admin_privileges] is
    [None] when [GetOkExists] answers [ok = false] and otherwise holds the
    result of [Set.List()]. *)
Record ResourceData := mkData {
  data_id : string;
  key : string;
  display_name : string;
  description : string;
  admin_privileges : option (list PrivilegesBlock);
  max_storage_in_gigabytes : Z;
  block_deployments_on_limit : bool;
  email_notification : bool
}.

Definition SetId (v : string) (d : ResourceData) : ResourceData :=
  mkData v (key d) (display_name d) (description d) (admin_privileges d)
         (max_storage_in_gigabytes d) (block_deployments_on_limit d)
         (email_notification d).

(** *** Schema: the [key] attribute *)

(** [^[a-z0-9]{3,6}$] *)
Definition keyPattern : Regexp :=
  Concat BeginText
    (Concat (Repeat 3 6 (CharClass [("a", "z"); ("0", "9")]%char)) EndText).

(** [validation.StringMatch] with a non-empty message, as at its one call
    site: the errors reported for value [v] of attribute [k]. *)
Definition StringMatch (r : Regexp) (message : string) (v k : string)
  : list string :=
  if MatchString r v then []
  else ["invalid value for " ++ k ++ " (" ++ message ++ ")"].

Definition keyValidate (v : string) : list string :=
  StringMatch keyPattern
    "key must be 3 - 6 lowercase alphanumeric characters" v "key".

(** *** Schema: [max_storage_in_gigabytes] *)

Definition DiffSuppressFunc (arch : Arch) (k old new : string)
  (d : ResourceData) : bool :=
  match Atoi arch old with
  | inr _ => false
  | inl oldVal =>
      match Atoi arch new with
      | inr _ => false
      | inl newVal =>
          let oldVal := mul arch (mul arch (mul arch oldVal 1024) 1024) 1024 in
          let newVal := mul arch (mul arch (mul arch newVal 1024) 1024) 1024 in
          newVal =? oldVal
      end
  end.

(** Modelled from the spec: [GigabytlesToBytes] is defined outside the
    files at hand.  The quota is configured in gigabytes and stored in
    bytes, the factor is 1024³, and the sentinel [-1] (unlimited) bypasses
    the conversion. *)
Definition GigabytlesToBytes (arch : Arch) (gb : Z) : Z :=
  if gb =? -1 then -1 else mul arch gb (1024 ^ 3).

(** Modelled from the spec: [BytesToGigabytles] is defined outside the
    files at hand.  Reverse conversion, bytes to gigabytes, which keeps
    the sentinel [-1] unconverted. *)
Definition BytesToGigabytles (bytes : Z) : Z :=
  if bytes =? -1 then -1 else div bytes (1024 ^ 3).

(** *** Pack and unpack *)

(** Returns [(interface{}, string, error)]; a [nil] interface is [None].
    The accessors [getString], [getInt] and [getBool] are declared outside
    these files; each is taken to return the value of the attribute it
    names. *)
Definition unpackProject (arch : Arch) (d : ResourceData)
  : option Project * string * option string :=
  let project :=
    mkProject (key d) (display_name d) (description d) None
              (GigabytlesToBytes arch (max_storage_in_gigabytes d))
              (block_deployments_on_limit d) (email_notification d) in
  match admin_privileges d with
  | Some privileges =>
      match privileges with
      | [] => (None, "", None)
      | id :: _ =>
          let adminPrivileges :=
            mkAdminPrivileges (manage_members id) (manage_resources id)
                              (index_resources id) in
          let project :=
            mkProject (Key project) (DisplayName project) (Description project)
                      (Some adminPrivileges) (StorageQuota project)
                      (SoftLimit project) (QuotaEmailNotification project) in
          (Some project, Id project, None)
      end
  | None => (Some project, Id project, None)
  end.

(** [setValue], the setter made by [mkLens] (declared outside these
    files), stores one attribute; the diagnostics returned are always
    [nil]. *)
Definition packProject (d : ResourceData) (project : Project)
  : ResourceData * Diagnostics :=
  (mkData (data_id d) (Key project) (DisplayName project) (Description project)
          (match AdminPrivilegesPtr project with
           | Some ap => Some [mkBlock (ManageMembers ap) (ManageResources ap)
                                      (IndexResources ap)]
           | None => admin_privileges d
           end)
          (BytesToGigabytles (StorageQuota project))
          (SoftLimit project) (QuotaEmailNotification project),
   []).

(** *** CRUD *)

(** [SetBody] receives an [interface{}]: [nil] or a [Project]. *)
Definition Body : Type := option Project.

(** The client [m]: how the remote side answers a request given the
    requests made before it, and what [SetResult(&project)] leaves in
    [project] once the call has returned without error. *)
Record Client := mkClient {
  Response : Type;
  roundTrip : list (Request Body) -> Request Body -> Outcome Response;
  intoProject : Response -> Project -> Project
}.

Definition execute (m : Client) (r : Request Body)
  : Session Body (Outcome (Response m)) :=
  fun log => (roundTrip m log r, (log ++ [r])%list).

Definition readProject (m : Client) (data : ResourceData)
  : Session Body (ResourceData * Diagnostics) :=
  let project := zeroProject in
  out <- execute m (mkRequest GET (projectsUrl ++ data_id data) [] None) ;;
  match out with
  | Failed err => ret (data, FromErr err)
  | Done resp => ret (packProject data (intoProject m resp project))
  end.

Definition createProject (arch : Arch) (m : Client) (data : ResourceData)
  : Session Body (ResourceData * Diagnostics) :=
  let '(project, key, err) := unpackProject arch data in
  match err with
  | Some e => ret (data, FromErr e)
  | None =>
      out <- execute m (mkRequest POST projectsUrl [] (Some project)) ;;
      match out with
      | Failed e => ret (data, FromErr e)
      | Done _ => readProject m (SetId key data)
      end
  end.

Definition updateProject (arch : Arch) (m : Client) (data : ResourceData)
  : Session Body (ResourceData * Diagnostics) :=
  let '(project, key, err) := unpackProject arch data in
  match err with
  | Some e => ret (data, FromErr e)
  | None =>
      out <- execute m (mkRequest PUT (projectsUrl ++ data_id data) []
                                  (Some project)) ;;
      match out with
      | Failed e => ret (data, FromErr e)
      | Done _ => readProject m (SetId key data)
      end
  end.

Definition deleteProject (m : Client) (data : ResourceData)
  : Session Body (ResourceData * Diagnostics) :=
  out <- execute m (mkRequest DELETE (projectsUrl ++ data_id data) [] None) ;;
  match out with
  | Failed err => ret (data, FromErr err)
  | Done _ => ret (data, [])
  end.

End Projects.

(** ** The project-group membership resource ([projectGroupResource]) *)

Module ProjectGroups.

Definition projectGroupsUrl : string :=
  "access/api/v1/projects/{projectKey}/groups/{name}".

(** Modelled from the spec: the [ProjectGroup] struct is declared outside
    the files at hand.  A membership is the project key, the principal's
    name and its set of role names. *)
Record ProjectGroup := mkProjectGroup {
  ProjectKey : string;
  Name : string;
  Roles : list string
}.

(** The value of [var loadedProjectGroup ProjectGroup]. *)
Definition zeroProjectGroup : ProjectGroup := mkProjectGroup "" "" [].

(** Modelled from the spec: the [Id] method of [ProjectGroup] is declared
    outside the files at hand.  The identity is the project key, the
    separator of the import parser, and the name. *)
Definition Id (g : ProjectGroup) : string :=
  ProjectKey g ++ ":" ++ Name g.

(** [schema.ResourceData] typed by [projectGroupSchema]. *)
Record ResourceData := mkData {
  data_id : string;
  project_key : string;
  name : string;
  roles : list string
}.

Definition SetId (v : string) (d : ResourceData) : ResourceData :=
  mkData v (project_key d) (name d) (roles d).

(** [d.Set("project_key", v)] and [d.Set("name", v)] *)
Definition Set_project_key (v : string) (d : ResourceData) : ResourceData :=
  mkData (data_id d) v (name d) (roles d).

Definition Set_name (v : string) (d : ResourceData) : ResourceData :=
  mkData (data_id d) (project_key d) v (roles d).

(** Modelled from the spec: [unpackProjectGroup] is defined outside the
    files at hand.  It maps the declarative state ([project_key], [name],
    [roles]) to the membership value. *)
Definition unpackProjectGroup (d : ResourceData) : ProjectGroup :=
  mkProjectGroup (project_key d) (name d) (roles d).

(** Modelled from the spec: [packProjectGroup] is defined outside the
    files at hand.  It maps a membership value back into the declarative
    state and leaves the identity alone. *)
Definition packProjectGroup (d : ResourceData) (g : ProjectGroup)
  : ResourceData * Diagnostics :=
  (mkData (data_id d) (ProjectKey g) (Name g) (Roles g), []).

(** [SetBody(&projectGroup)] *)
Definition Body : Type := ProjectGroup.

(** The client held by the provider metadata [m]; [intoProjectGroup] is
    what [SetResult(&loadedProjectGroup)] leaves in [loadedProjectGroup]
    once the call has returned without error. *)
Record Client := mkClient {
  Response : Type;
  roundTrip : list (Request Body) -> Request Body -> Outcome Response;
  intoProjectGroup : Response -> ProjectGroup -> ProjectGroup
}.

Definition execute (m : Client) (r : Request Body)
  : Session Body (Outcome (Response m)) :=
  fun log => (roundTrip m log r, (log ++ [r])%list).

Definition pathParamsOf (g : ProjectGroup) : list (string * string) :=
  [("projectKey", ProjectKey g); ("name", Name g)].

Definition readProjectGroup (m : Client) (data : ResourceData)
  : Session Body (ResourceData * Diagnostics) :=
  let projectGroup := unpackProjectGroup data in
  let loadedProjectGroup := zeroProjectGroup in
  out <- execute m (mkRequest GET projectGroupsUrl (pathParamsOf projectGroup)
                              None) ;;
  match out with
  | Failed err => ret (data, FromErr err)
  | Done resp =>
      let loadedProjectGroup := intoProjectGroup m resp loadedProjectGroup in
      let loadedProjectGroup :=
        mkProjectGroup (ProjectKey projectGroup) (Name loadedProjectGroup)
                       (Roles loadedProjectGroup) in
      ret (packProjectGroup data loadedProjectGroup)
  end.

Definition upsertProjectGroup (m : Client) (data : ResourceData)
  : Session Body (ResourceData * Diagnostics) :=
  let projectGroup := unpackProjectGroup data in
  out <- execute m (mkRequest PUT projectGroupsUrl (pathParamsOf projectGroup)
                              (Some projectGroup)) ;;
  match out with
  | Failed err => ret (data, FromErr err)
  | Done _ => readProjectGroup m (SetId (Id projectGroup) data)
  end.

Definition deleteProjectGroup (m : Client) (data : ResourceData)
  : Session Body (ResourceData * Diagnostics) :=
  let projectGroup := unpackProjectGroup data in
  out <- execute m (mkRequest DELETE projectGroupsUrl
                              (pathParamsOf projectGroup) None) ;;
  match out with
  | Failed err => ret (data, FromErr err)
  | Done _ => ret (SetId "" data, [])
  end.

(** Returns [([]*schema.ResourceData, error)]. *)
Definition importForProjectKeyGroupName (d : ResourceData)
  : list ResourceData * option string :=
  let parts := SplitN (data_id d) ":" 2 in
  match parts with
  | [p0; p1] =>
      if String.eqb p0 "" || String.eqb p1 "" then
        ([], Some ("unexpected format of ID (" ++ data_id d
                   ++ "), expected project_key:name"))
      else
        let d := Set_project_key p0 d in
        let d := Set_name p1 d in
        ([d], None)
  | _ =>
      ([], Some ("unexpected format of ID (" ++ data_id d
                 ++ "), expected project_key:name"))
  end.

End ProjectGroups.

(** ** Schema: validation of [max_storage_in_gigabytes] *)

Module Validation.

(** What the integer validators of the SDK report. *)
Inductive IntError :=
| NotAtLeast (k : string) (min v : Z)
| NotOneOf (k : string) (valid : list Z) (v : Z).

(** A [schema.SchemaValidateFunc] on an [int] value: warnings and errors. *)
Definition IntValidateFunc : Type := Z -> string -> list string * list IntError.

Definition IntAtLeast (min : Z) : IntValidateFunc :=
  fun v k => if v <? min then ([], [NotAtLeast k min v]) else ([], []).

Definition IntInSlice (valid : list Z) : IntValidateFunc :=
  fun v k =>
    if existsb (fun validInt => v =? validInt) valid then ([], [])
    else ([], [NotOneOf k valid v]).

(** The loop of [validation.Any]: the first validator without warnings and
    errors ends it with an empty result; otherwise everything reported is
    accumulated. *)
Fixpoint AnyFrom (validators : list IntValidateFunc)
  (allWarnings : list string) (allErrors : list IntError) (v : Z) (k : string)
  : list string * list IntError :=
  match validators with
  | [] => (allWarnings, allErrors)
  | validator :: others =>
      let (validatorWarnings, validatorErrors) := validator v k in
      match validatorWarnings, validatorErrors with
      | [], [] => ([], [])
      | _, _ =>
          AnyFrom others (allWarnings ++ validatorWarnings)%list
                  (allErrors ++ validatorErrors)%list v k
      end
  end.

Definition Any (validators : list IntValidateFunc) : IntValidateFunc :=
  AnyFrom validators [] [].

(** The [ValidateDiagFunc] of [max_storage_in_gigabytes]. *)
Definition maxStorageValidate (v : Z) : list string * list IntError :=
  Any [IntAtLeast 1; IntInSlice [-1]] v "max_storage_in_gigabytes".

End Validation.
Import Validation.

(** ** Vocabulary of the statements *)

Module Chars.

Fixpoint all_chars (f : ascii -> bool) (s : string) : bool :=
  match s with
  | EmptyString => true
  | String c rest => f c && all_chars f rest
  end.

Fixpoint any_chars (f : ascii -> bool) (s : string) : bool :=
  match s with
  | EmptyString => false
  | String c rest => f c || any_chars f rest
  end.

Definition between (lo hi : nat) (c : ascii) : bool :=
  (lo <=? nat_of_ascii c)%nat && (nat_of_ascii c <=? hi)%nat.

Definition is_lower : ascii -> bool := between 97 122.
Definition is_upper : ascii -> bool := between 65 90.
Definition is_digit : ascii -> bool := between 48 57.
Definition lower_alnum (c : ascii) : bool := is_lower c || is_digit c.
Definition is_alnum (c : ascii) : bool := lower_alnum c || is_upper c.
Definition is_colon (c : ascii) : bool := Ascii.eqb c ":"%char.

End Chars.
Import Chars.

(** A position at the end of the text. *)
Definition at_end (p : Pos) : bool :=
  match snd p with EmptyString => true | String _ _ => false end.

(** The shape [^[R]{lo,hi}$] of the key pattern. *)
Definition anchored (R : list (ascii * ascii)) (lo hi : nat) : Regexp :=
  Concat BeginText (Concat (Repeat lo hi (CharClass R)) EndText).

(** The flow of [createProject] past an empty unpack result: no error
    from the unpack step, then exactly the POST with a null body and the
    GET on the bare projects URL, and the empty string as identity. *)
Definition posts_then_reads (arch : Arch) (m : Projects.Client)
  (data : Projects.ResourceData) (log : list (Request Projects.Body)) : Prop :=
  snd (Projects.unpackProject arch data) = None
  /\ snd (Projects.createProject arch m data log)
     = (log ++ [mkRequest POST Projects.projectsUrl [] (Some None);
                mkRequest GET Projects.projectsUrl [] None])%list
  /\ Projects.data_id (fst (fst (Projects.createProject arch m data log))) = "".

(** ** Sample clients and states *)

Module Samples.

(** A remote side that cannot be reached. *)
Definition downProjects : Projects.Client :=
  Projects.mkClient unit (fun _ _ => Failed "connection refused")
                    (fun _ p => p).

(** A remote side that answers every call and returns one fixed project. *)
Definition stubProjects : Projects.Client :=
  Projects.mkClient unit (fun _ _ => Done tt)
    (fun _ _ => Projects.mkProject "abc" "ABC" "" None (-1) false false).

Definition emptyPrivileges : Projects.ResourceData :=
  Projects.mkData "" "abc" "ABC" "" (Some []) (-1) false false.

Definition downGroups : ProjectGroups.Client :=
  ProjectGroups.mkClient unit (fun _ _ => Failed "connection refused")
                         (fun _ g => g).

(** A remote side whose answer names another project. *)
Definition stubGroups : ProjectGroups.Client :=
  ProjectGroups.mkClient unit (fun _ _ => Done tt)
    (fun _ _ => ProjectGroups.mkProjectGroup "other" "devs" ["developer"]).

Definition devs : ProjectGroups.ResourceData :=
  ProjectGroups.mkData "abc:devs" "abc" "devs" ["contributor"].

End Samples.

(** * Properties *)

Import Projects.

(** ** Arithmetic of [int] *)

Lemma half_pos (a : Arch) : 0 < half a.
Proof. destruct a; reflexivity. Qed.

Lemma modulus_half (a : Arch) : modulus a = 2 * half a.
Proof. destruct a; reflexivity. Qed.

Lemma wrap_in_range (a : Arch) (z : Z) :
  in_range a z = true -> wrap a z = z.
Proof.
  unfold in_range, wrap, minInt, maxInt. intros H.
  apply andb_true_iff in H. destruct H as [Hlo Hhi].
  apply Z.leb_le in Hlo. apply Z.leb_le in Hhi.
  pose proof (half_pos a). rewrite modulus_half.
  rewrite Z.mod_small by lia. lia.
Qed.

Lemma wrap_mul_l (a : Arch) (u z : Z) :
  wrap a (wrap a u * z) = wrap a (u * z).
Proof.
  unfold wrap. f_equal.
  assert (Hm : modulus a <> 0)
    by (rewrite modulus_half; pose proof (half_pos a); lia).
  rewrite (Z.mod_eq (u + half a) (modulus a)) by exact Hm.
  replace ((u + half a - modulus a * ((u + half a) / modulus a) - half a) * z
           + half a)
    with (u * z + half a + (- ((u + half a) / modulus a) * z) * modulus a)
    by ring.
  apply Z_mod_plus_full.
Qed.

(** The three successive multiplications by 1024 are one wrapped
    multiplication by 1024³. *)
Lemma mul_1024_thrice (a : Arch) (x : Z) :
  mul a (mul a (mul a x 1024) 1024) 1024 = wrap a (x * 1024 ^ 3).
Proof.
  unfold mul. rewrite wrap_mul_l.
  rewrite <- Z.mul_assoc. rewrite wrap_mul_l.
  f_equal. change (1024 ^ 3) with (1024 * (1024 * 1024)). ring.
Qed.

Lemma DiffSuppressFunc_parsed (arch : Arch) (k old new : string)
  (d : ResourceData) (a b : Z) :
  Atoi arch old = inl a -> Atoi arch new = inl b ->
  DiffSuppressFunc arch k old new d
  = (wrap arch (b * 1024 ^ 3) =? wrap arch (a * 1024 ^ 3)).
Proof.
  intros Ha Hb. unfold DiffSuppressFunc. rewrite Ha, Hb.
  now rewrite !mul_1024_thrice.
Qed.

(** ** Storage quota *)

Lemma quota_roundtrip_fn (arch : Arch) (b : Z) :
  in_range arch b = true ->
  (exists k, 0 <= k /\ b = k * 1024 ^ 3) \/ b = -1 ->
  GigabytlesToBytes arch (BytesToGigabytles b) = b.
Proof.
  intros Hr [[k [Hk Hb]] | Hb].
  - unfold BytesToGigabytles, GigabytlesToBytes, div.
    assert (Hne : (b =? -1) = false) by (apply Z.eqb_neq; lia).
    rewrite Hne. subst b. rewrite Z.quot_mul by lia.
    assert (Hk' : (k =? -1) = false) by (apply Z.eqb_neq; lia).
    rewrite Hk'. unfold mul. now apply wrap_in_range.
  - subst b. reflexivity.
Qed.

(** C1: for every [int] byte count [b] that is a non-negative multiple of
    1024³, and for the sentinel [-1], converting to gigabytes and back
    gives [b] again; the sentinel maps to itself in both directions; and
    the quota of a project that is packed into the state and unpacked from
    it is the quota it had.  (Unpacking answers [nil] only when the state
    held an explicitly empty [admin_privileges] set that packing left in
    place.) *)
Theorem storage_quota_roundtrip (arch : Arch) (b : Z) :
  in_range arch b = true ->
  (exists k, 0 <= k /\ b = k * 1024 ^ 3) \/ b = -1 ->
  GigabytlesToBytes arch (BytesToGigabytles b) = b
  /\ BytesToGigabytles (-1) = -1
  /\ GigabytlesToBytes arch (-1) = -1
  /\ forall (d : ResourceData) (p : Project),
       StorageQuota p = b ->
       max_storage_in_gigabytes (fst (packProject d p)) = BytesToGigabytles b
       /\ match fst (fst (unpackProject arch (fst (packProject d p)))) with
          | Some q => StorageQuota q = b
          | None => AdminPrivilegesPtr p = None /\ admin_privileges d = Some []
          end.
Proof.
  intros Hr Hb. pose proof (quota_roundtrip_fn arch b Hr Hb) as RT.
  split; [exact RT |]. split; [reflexivity |]. split; [reflexivity |].
  intros d p Hq. split.
  - cbn. now rewrite Hq.
  - unfold unpackProject, packProject. cbn [fst admin_privileges].
    destruct (AdminPrivilegesPtr p) as [ap |] eqn:Hap; cbn.
    + now rewrite Hq.
    + destruct (admin_privileges d) as [[| blk rest] |] eqn:Hd; cbn;
        try (now rewrite Hq); now split.
Qed.

Lemma storage_quota_roundtrip_witness :
  GigabytlesToBytes Arch64 (BytesToGigabytles (5 * 1024 ^ 3)) = 5 * 1024 ^ 3
  /\ GigabytlesToBytes Arch32 (BytesToGigabytles (-1)) = -1.
Proof.
  split.
  - apply (storage_quota_roundtrip Arch64 (5 * 1024 ^ 3)).
    + reflexivity.
    + left. exists 5. split; [lia | reflexivity].
  - apply (storage_quota_roundtrip Arch32 (-1)).
    + reflexivity.
    + right. reflexivity.
Defined.

(** ** Diff suppression *)

(** C2: when both strings parse, as [a] and [b], and [a*1024³ == b*1024³]
    (as [int] values, and all the more as integers), the predicate
    returns [true]; when either string fails to parse it returns
    [false]. *)
Theorem diff_suppress_spec (arch : Arch) (k old new : string)
  (d : ResourceData) :
  (forall a b, Atoi arch old = inl a -> Atoi arch new = inl b ->
     wrap arch (a * 1024 ^ 3) = wrap arch (b * 1024 ^ 3) ->
     DiffSuppressFunc arch k old new d = true)
  /\ (forall a b, Atoi arch old = inl a -> Atoi arch new = inl b ->
     a * 1024 ^ 3 = b * 1024 ^ 3 ->
     DiffSuppressFunc arch k old new d = true)
  /\ ((exists e, Atoi arch old = inr e) \/ (exists e, Atoi arch new = inr e) ->
     DiffSuppressFunc arch k old new d = false).
Proof.
  repeat split.
  - intros a b Ha Hb E. rewrite (DiffSuppressFunc_parsed _ _ _ _ _ a b Ha Hb).
    apply Z.eqb_eq. now symmetry.
  - intros a b Ha Hb E. rewrite (DiffSuppressFunc_parsed _ _ _ _ _ a b Ha Hb).
    apply Z.eqb_eq. now rewrite E.
  - intros [[e He] | [e He]]; unfold DiffSuppressFunc.
    + now rewrite He.
    + rewrite He. now destruct (Atoi arch old).
Qed.

Lemma diff_suppress_spec_witness :
  DiffSuppressFunc Arch64 "max_storage_in_gigabytes" "+5" "05"
    Samples.emptyPrivileges = true
  /\ DiffSuppressFunc Arch64 "max_storage_in_gigabytes" "5" "5_0"
       Samples.emptyPrivileges = false.
Proof.
  split.
  - apply (proj1 (diff_suppress_spec Arch64 _ "+5" "05" _) 5 5); reflexivity.
  - apply (proj2 (proj2 (diff_suppress_spec Arch64 _ "5" "5_0" _))).
    right. exists ErrSyntax. reflexivity.
Defined.

(** C9: suppression is not injective on the parsed values.  On either
    platform two strings parse to distinct [int]s, [2^(w-30)] apart (so
    [2^34] apart for a 64-bit [int]), and the predicate still returns
    [true]; both values pass the attribute's validation (at least 1).
    Equal values are always suppressed, so suppression is strictly weaker
    than equality. *)
Theorem diff_suppress_not_injective (arch : Arch) (k : string)
  (d : ResourceData) :
  (exists old new a b,
     Atoi arch old = inl a /\ Atoi arch new = inl b /\
     1 <= a /\ 1 <= b /\ a <> b /\ b - a = 2 ^ (intSize arch - 30) /\
     DiffSuppressFunc arch k old new d = true)
  /\ DiffSuppressFunc Arch64 k "1" "17179869185" d = true
  /\ 17179869185 - 1 = 2 ^ 34.
Proof.
  split; [| split; reflexivity].
  destruct arch.
  - exists "1", "5", 1, 5. repeat split; try reflexivity; lia.
  - exists "1", "17179869185", 1, 17179869185.
    repeat split; try reflexivity; lia.
Qed.

(** ** Unpacking the privileges block *)

(** C3: with an [admin_privileges] set that is present and empty,
    [unpackProject] returns a [nil] value, the empty identifier and no
    error; with a non-empty set it returns the project whose
    [AdminPrivileges] pointer carries the three flags of the first
    element (with the key as identifier and no error). *)
Theorem unpack_admin_privileges (arch : Arch) (d : ResourceData) :
  (admin_privileges d = Some [] ->
     unpackProject arch d = (None, "", None))
  /\ (forall first rest, admin_privileges d = Some (first :: rest) ->
        exists p,
          unpackProject arch d = (Some p, key d, None)
          /\ AdminPrivilegesPtr p
             = Some (mkAdminPrivileges (manage_members first)
                                       (manage_resources first)
                                       (index_resources first))
          /\ Key p = key d /\ DisplayName p = display_name d
          /\ Description p = description d
          /\ StorageQuota p
             = GigabytlesToBytes arch (max_storage_in_gigabytes d)
          /\ SoftLimit p = block_deployments_on_limit d
          /\ QuotaEmailNotification p = email_notification d).
Proof.
  split.
  - intros H. unfold unpackProject. now rewrite H.
  - intros first rest H. unfold unpackProject. rewrite H.
    eexists. split; [reflexivity |]. cbn. repeat split.
Qed.

Lemma unpack_admin_privileges_witness :
  unpackProject Arch64 Samples.emptyPrivileges = (None, "", None)
  /\ exists p,
       unpackProject Arch64
         (mkData "" "abc" "ABC" ""
                 (Some [mkBlock true false true; mkBlock false false false])
                 (-1) false false)
       = (Some p, "abc", None)
       /\ AdminPrivilegesPtr p = Some (mkAdminPrivileges true false true).
Proof.
  split.
  - apply (proj1 (unpack_admin_privileges Arch64 Samples.emptyPrivileges)).
    reflexivity.
  - destruct (proj2 (unpack_admin_privileges Arch64
                (mkData "" "abc" "ABC" ""
                   (Some [mkBlock true false true; mkBlock false false false])
                   (-1) false false))
                (mkBlock true false true) [mkBlock false false false]
                eq_refl) as [p [H1 [H2 _]]].
    exists p. split; assumption.
Defined.

(** ** Key validation *)

Section CountedClass.

Variable R : list (ascii * ascii).

Lemma class_step (off : nat) (c : ascii) (s : string) :
  ends (CharClass R) (off, String c s)
  = if in_class R c then [(S off, s)] else [].
Proof. reflexivity. Qed.

Lemma iterate_nil (n : nat) : iterate (ends (CharClass R)) n [] = [].
Proof. induction n as [| n IH]; [reflexivity | exact IH]. Qed.

Lemma upto_nil (k : nat) : upto (ends (CharClass R)) k [] = [].
Proof. induction k as [| k IH]; [reflexivity | exact IH]. Qed.

Lemma upto_at_end (k : nat) : forall (off : nat) (s : string),
  existsb at_end (upto (ends (CharClass R)) k [(off, s)])
  = (String.length s <=? k)%nat && all_chars (in_class R) s.
Proof.
  induction k as [| k IH]; intros off [| c s]; try reflexivity.
  cbn [upto]. rewrite existsb_app. cbn [existsb at_end snd orb].
  cbn [flat_map]. rewrite app_nil_r, class_step.
  cbn [String.length all_chars].
  change (S (String.length s) <=? S k)%nat with (String.length s <=? k)%nat.
  destruct (in_class R c).
  - now rewrite IH.
  - rewrite upto_nil. cbn. now rewrite andb_false_r.
Qed.

Lemma iterate_upto_at_end (k n : nat) : forall (off : nat) (s : string),
  existsb at_end (upto (ends (CharClass R)) k
                       (iterate (ends (CharClass R)) n [(off, s)]))
  = (n <=? String.length s)%nat && (String.length s <=? n + k)%nat
    && all_chars (in_class R) s.
Proof.
  induction n as [| n IH]; intros off s.
  - cbn [iterate]. now rewrite upto_at_end.
  - cbn [iterate flat_map]. rewrite app_nil_r. destruct s as [| c s].
    + cbn. rewrite iterate_nil, upto_nil. reflexivity.
    + rewrite class_step. cbn [String.length all_chars].
      change (S n <=? S (String.length s))%nat
        with (n <=? String.length s)%nat.
      change (S (String.length s) <=? S n + k)%nat
        with (String.length s <=? n + k)%nat.
      destruct (in_class R c).
      * now rewrite IH.
      * rewrite iterate_nil, upto_nil. cbn. now rewrite andb_false_r.
Qed.

Lemma end_text_filter (l : list Pos) :
  nonempty (flat_map (ends EndText) l) = existsb at_end l.
Proof.
  induction l as [| [off s] l IH]; [reflexivity |].
  cbn [flat_map existsb]. destruct s; cbn; [reflexivity | exact IH].
Qed.

Lemma anchored_at_start (lo hi : nat) (s : string) :
  nonempty (ends (anchored R lo hi) (0%nat, s))
  = (lo <=? String.length s)%nat && (String.length s <=? lo + (hi - lo))%nat
    && all_chars (in_class R) s.
Proof.
  unfold anchored. cbn [ends fst Nat.eqb flat_map]. rewrite app_nil_r.
  rewrite end_text_filter. apply iterate_upto_at_end.
Qed.

(** [^] cannot match past the first offset. *)
Lemma anchored_later (lo hi : nat) (s : string) : forall off : nat,
  existsb (fun p => nonempty (ends (anchored R lo hi) p)) (starts (S off) s)
  = false.
Proof.
  induction s as [| c s IH]; intros off; [reflexivity |].
  cbn [starts existsb]. rewrite IH. reflexivity.
Qed.

Lemma MatchString_anchored (lo hi : nat) (s : string) :
  MatchString (anchored R lo hi) s
  = (lo <=? String.length s)%nat && (String.length s <=? lo + (hi - lo))%nat
    && all_chars (in_class R) s.
Proof.
  unfold MatchString. destruct s as [| c s]; cbn [starts existsb].
  - rewrite anchored_at_start. now rewrite orb_false_r.
  - rewrite anchored_later, orb_false_r. apply anchored_at_start.
Qed.

End CountedClass.

Lemma key_class (c : ascii) :
  in_class [("a", "z"); ("0", "9")]%char c = lower_alnum c.
Proof.
  unfold in_class, lower_alnum, is_lower, is_digit, between.
  cbn [existsb fst snd]. now rewrite orb_false_r.
Qed.

Lemma all_chars_ext (f g : ascii -> bool) (s : string) :
  (forall c, f c = g c) -> all_chars f s = all_chars g s.
Proof.
  intros E. induction s as [| c s IH]; [reflexivity |].
  cbn. now rewrite E, IH.
Qed.

Lemma any_excludes_all (f g : ascii -> bool) (s : string) :
  (forall c, f c = true -> g c = false) ->
  any_chars f s = true -> all_chars g s = false.
Proof.
  intros E. induction s as [| c s IH]; cbn; [discriminate |].
  intros H. apply orb_true_iff in H. destruct H as [H | H].
  - now rewrite (E c H).
  - rewrite (IH H). apply andb_false_r.
Qed.

Lemma MatchString_key (s : string) :
  MatchString keyPattern s
  = (3 <=? String.length s)%nat && (String.length s <=? 6)%nat
    && all_chars lower_alnum s.
Proof.
  change keyPattern with (anchored [("a", "z"); ("0", "9")]%char 3 6).
  rewrite MatchString_anchored.
  now rewrite (all_chars_ext _ lower_alnum s key_class).
Qed.

Lemma upper_not_lower_alnum (c : ascii) :
  is_upper c = true -> lower_alnum c = false.
Proof.
  unfold is_upper, lower_alnum, is_lower, is_digit, between. intros H.
  apply andb_true_iff in H. destruct H as [H1 H2].
  apply Nat.leb_le in H1. apply Nat.leb_le in H2.
  apply orb_false_iff. split; apply andb_false_iff.
  - left. apply Nat.leb_gt. lia.
  - right. apply Nat.leb_gt. lia.
Qed.

Lemma not_alnum_not_lower_alnum (c : ascii) :
  negb (is_alnum c) = true -> lower_alnum c = false.
Proof.
  unfold is_alnum. intros H. apply negb_true_iff in H.
  now apply orb_false_iff in H.
Qed.

(** C4: the [key] validation reports no error exactly for the strings
    matched by [^[a-z0-9]{3,6}$], that is the strings of 3 to 6 bytes that
    are all lowercase letters or digits; a leading digit is accepted; a
    string that is shorter than 3, longer than 6, or contains an uppercase
    letter or a non-alphanumeric byte is rejected. *)
Theorem key_validation (s : string) :
  (keyValidate s = [] <-> MatchString keyPattern s = true)
  /\ (keyValidate s = [] <->
      (3 <= String.length s <= 6)%nat /\ all_chars lower_alnum s = true)
  /\ keyValidate "1abc" = []
  /\ ((String.length s < 3)%nat \/ (6 < String.length s)%nat
      \/ any_chars is_upper s = true
      \/ any_chars (fun c => negb (is_alnum c)) s = true ->
      keyValidate s <> []).
Proof.
  assert (V : keyValidate s = [] <-> MatchString keyPattern s = true).
  { unfold keyValidate, StringMatch.
    destruct (MatchString keyPattern s); split; intros H;
      try reflexivity; discriminate. }
  assert (W : MatchString keyPattern s = true <->
              (3 <= String.length s <= 6)%nat /\ all_chars lower_alnum s = true).
  { rewrite MatchString_key. rewrite !andb_true_iff, !Nat.leb_le. tauto. }
  split; [exact V |]. split; [now rewrite V |]. split; [reflexivity |].
  intros H G. apply V, W in G. destruct G as [[G1 G2] G3].
  destruct H as [H | [H | [H | H]]]; try lia.
  - rewrite (any_excludes_all _ _ s upper_not_lower_alnum H) in G3.
    discriminate.
  - rewrite (any_excludes_all _ _ s not_alnum_not_lower_alnum H) in G3.
    discriminate.
Qed.

Lemma key_validation_witness :
  keyValidate "us1a" = [] /\ keyValidate "Us1a" <> []
  /\ keyValidate "us" <> [] /\ keyValidate "us-1a" <> [].
Proof.
  split; [| split; [| split]].
  - apply (proj1 (proj2 (key_validation "us1a"))).
    split; [cbn; lia | reflexivity].
  - apply (proj2 (proj2 (proj2 (key_validation "Us1a")))).
    right. right. left. reflexivity.
  - apply (proj2 (proj2 (proj2 (key_validation "us")))).
    left. cbn. lia.
  - apply (proj2 (proj2 (proj2 (key_validation "us-1a")))).
    right. right. right. reflexivity.
Defined.

(** ** Splitting the import identifier *)

Lemma prefix_empty (s : string) : String.prefix "" s = true.
Proof. destruct s; reflexivity. Qed.

Lemma cut_colon_cons (c : ascii) (s : string) :
  cut ":" (String c s)
  = if is_colon c then Some ("", s)
    else match cut ":" s with
         | Some (a, b) => Some (String c a, b)
         | None => None
         end.
Proof.
  unfold is_colon. cbn [cut String.prefix String.length drop].
  destruct (ascii_dec ":" c) as [E | N].
  - subst c. now rewrite prefix_empty.
  - assert (F : Ascii.eqb c ":" = false)
      by (apply Ascii.eqb_neq; congruence).
    now rewrite F.
Qed.

Lemma cut_no_colon (s : string) :
  any_chars is_colon s = false -> cut ":" s = None.
Proof.
  induction s as [| c s IH]; [reflexivity |].
  cbn [any_chars]. intros H. apply orb_false_iff in H. destruct H as [Hc Hs].
  rewrite cut_colon_cons, Hc. now rewrite (IH Hs).
Qed.

Lemma cut_first_colon (p n : string) :
  any_chars is_colon p = false -> cut ":" (p ++ ":" ++ n) = Some (p, n).
Proof.
  induction p as [| c p IH]; cbn [any_chars append] in *.
  - intros _. now rewrite cut_colon_cons.
  - intros H. apply orb_false_iff in H.
    destruct H as [Hc Hp]. rewrite cut_colon_cons, Hc. now rewrite (IH Hp).
Qed.

(** Every identifier either has no colon or splits at its first colon. *)
Lemma first_colon (s : string) :
  any_chars is_colon s = false
  \/ exists p n, s = p ++ ":" ++ n /\ any_chars is_colon p = false.
Proof.
  induction s as [| c s IH]; [now left |].
  destruct (is_colon c) eqn:Hc.
  - right. exists "", s. split; [| reflexivity].
    unfold is_colon in Hc. apply Ascii.eqb_eq in Hc. now subst c.
  - destruct IH as [IH | [p [n [E Hp]]]].
    + left. cbn. now rewrite Hc.
    + right. exists (String c p), n. split.
      * cbn. now rewrite E.
      * cbn. now rewrite Hc.
Qed.

(** With [n = 2] there is at most one cut. *)
Lemma SplitN_two (s sep : string) :
  SplitN s sep 2
  = match cut sep s with
    | None => [s]
    | Some (a, b) => [a; b]
    end.
Proof.
  change (SplitN s sep 2) with (genSplit 1 sep s). cbn [genSplit].
  now destruct (cut sep s) as [[a b] |].
Qed.

Import ProjectGroups.

Lemma import_no_colon (d : ProjectGroups.ResourceData) :
  any_chars is_colon (data_id d) = false ->
  importForProjectKeyGroupName d
  = ([], Some ("unexpected format of ID (" ++ data_id d
               ++ "), expected project_key:name")).
Proof.
  intros H. unfold importForProjectKeyGroupName. rewrite SplitN_two.
  now rewrite (cut_no_colon _ H).
Qed.

Lemma import_first_colon (d : ProjectGroups.ResourceData) (p n : string) :
  data_id d = p ++ ":" ++ n -> any_chars is_colon p = false ->
  importForProjectKeyGroupName d
  = if String.eqb p "" || String.eqb n ""
    then ([], Some ("unexpected format of ID (" ++ data_id d
                    ++ "), expected project_key:name"))
    else ([mkData (data_id d) p n (roles d)], None).
Proof.
  intros E H. unfold importForProjectKeyGroupName. rewrite SplitN_two.
  rewrite E at 1. rewrite (cut_first_colon p n H).
  destruct (String.eqb p "" || String.eqb n ""); reflexivity.
Qed.

(** C5: the import function fails, with a message that states the
    expected [project_key:name] format, when the identifier has no colon
    or when the part before its first colon or the part after it is
    empty; otherwise it returns no error and the single state whose
    [project_key] is the part before the first colon and whose [name] is
    the remainder.  These cases cover every identifier. *)
Theorem import_spec (d : ProjectGroups.ResourceData) :
  (any_chars is_colon (data_id d) = false ->
     importForProjectKeyGroupName d
     = ([], Some ("unexpected format of ID (" ++ data_id d
                  ++ "), expected project_key:name")))
  /\ (forall p n,
        data_id d = p ++ ":" ++ n -> any_chars is_colon p = false ->
        (p = "" \/ n = "" ->
           importForProjectKeyGroupName d
           = ([], Some ("unexpected format of ID (" ++ data_id d
                        ++ "), expected project_key:name")))
        /\ (p <> "" -> n <> "" ->
              importForProjectKeyGroupName d
              = ([mkData (data_id d) p n (roles d)], None)))
  /\ (any_chars is_colon (data_id d) = false
      \/ exists p n, data_id d = p ++ ":" ++ n
                     /\ any_chars is_colon p = false).
Proof.
  split; [apply import_no_colon |]. split; [| apply first_colon].
  intros p n E H. rewrite (import_first_colon d p n E H). split.
  - intros [Hp | Hn]; subst.
    + reflexivity.
    + cbn [String.eqb]. now rewrite orb_true_r.
  - intros Hp Hn. apply String.eqb_neq in Hp. apply String.eqb_neq in Hn.
    now rewrite Hp, Hn.
Qed.

Lemma import_spec_witness :
  importForProjectKeyGroupName (mkData "abcdevs" "" "" [])
  = ([], Some "unexpected format of ID (abcdevs), expected project_key:name")
  /\ importForProjectKeyGroupName (mkData ":devs" "" "" [])
     = ([], Some "unexpected format of ID (:devs), expected project_key:name")
  /\ importForProjectKeyGroupName (mkData "abc:dev:ops" "" "" [])
     = ([mkData "abc:dev:ops" "abc" "dev:ops" []], None).
Proof.
  split; [| split].
  - apply (proj1 (import_spec (mkData "abcdevs" "" "" []))). reflexivity.
  - apply (proj1 (proj1 (proj2 (import_spec (mkData ":devs" "" "" [])))
                   "" "devs" eq_refl eq_refl)).
    left. reflexivity.
  - apply (proj2 (proj1 (proj2 (import_spec (mkData "abc:dev:ops" "" "" [])))
                   "abc" "dev:ops" eq_refl eq_refl)); discriminate.
Defined.

(** ** Membership: read, delete, identity *)

Lemma readProjectGroup_done (m : Client) (data : ResourceData)
  (log : list (Request Body)) (resp : Response m) :
  roundTrip m log (mkRequest GET projectGroupsUrl
                             (pathParamsOf (unpackProjectGroup data)) None)
  = Done resp ->
  readProjectGroup m data log
  = (packProjectGroup data
       (mkProjectGroup (project_key data)
          (Name (intoProjectGroup m resp zeroProjectGroup))
          (Roles (intoProjectGroup m resp zeroProjectGroup))),
     (log ++ [mkRequest GET projectGroupsUrl
                        (pathParamsOf (unpackProjectGroup data)) None])%list).
Proof.
  intros H. unfold readProjectGroup, bind, execute, ret. now rewrite H.
Qed.

(** Reading never touches the identity. *)
Lemma readProjectGroup_id (m : Client) (data : ResourceData)
  (log : list (Request Body)) :
  data_id (fst (fst (readProjectGroup m data log))) = data_id data.
Proof.
  unfold readProjectGroup, bind, execute, ret.
  now destruct (roundTrip m log _).
Qed.

(** C7: whenever the GET of [readProjectGroup] returns without error, the
    value handed to [packProjectGroup] has the locally configured
    [project_key] as its [ProjectKey] (its name and roles are the loaded
    ones), whatever the response put into the loaded value; so the state
    read back keeps the local [project_key]. *)
Theorem read_keeps_local_project_key (m : Client) (data : ResourceData)
  (log : list (Request Body)) (resp : Response m) :
  roundTrip m log (mkRequest GET projectGroupsUrl
                             (pathParamsOf (unpackProjectGroup data)) None)
  = Done resp ->
  exists packed,
    readProjectGroup m data log
    = (packProjectGroup data packed,
       (log ++ [mkRequest GET projectGroupsUrl
                          (pathParamsOf (unpackProjectGroup data)) None])%list)
    /\ ProjectKey packed = project_key data
    /\ Name packed = Name (intoProjectGroup m resp zeroProjectGroup)
    /\ Roles packed = Roles (intoProjectGroup m resp zeroProjectGroup)
    /\ project_key (fst (fst (readProjectGroup m data log)))
       = project_key data.
Proof.
  intros H. eexists. split; [apply (readProjectGroup_done m data log resp H) |].
  repeat split. now rewrite (readProjectGroup_done m data log resp H).
Qed.

Lemma read_keeps_local_project_key_witness :
  ProjectKey (intoProjectGroup Samples.stubGroups tt zeroProjectGroup) = "other"
  /\ project_key (fst (fst (readProjectGroup Samples.stubGroups Samples.devs [])))
     = "abc".
Proof.
  split; [reflexivity |].
  destruct (read_keeps_local_project_key Samples.stubGroups Samples.devs [] tt
              eq_refl) as [packed [_ [_ [_ [_ H]]]]].
  exact H.
Defined.

(** C8: when the DELETE returns without error, whatever the response,
    [deleteProjectGroup] sets the identity to the empty string and returns
    no diagnostics; when the DELETE fails, it returns that error and the
    state, identity included, is as it was. *)
Theorem delete_clears_identity (m : Client) (data : ResourceData)
  (log : list (Request Body)) :
  (forall resp,
     roundTrip m log (mkRequest DELETE projectGroupsUrl
                                (pathParamsOf (unpackProjectGroup data)) None)
     = Done resp ->
     data_id (fst (fst (deleteProjectGroup m data log))) = ""
     /\ snd (fst (deleteProjectGroup m data log)) = []
     /\ fst (fst (deleteProjectGroup m data log)) = SetId "" data)
  /\ (forall err,
        roundTrip m log (mkRequest DELETE projectGroupsUrl
                                   (pathParamsOf (unpackProjectGroup data)) None)
        = Failed err ->
        snd (fst (deleteProjectGroup m data log)) = FromErr err
        /\ fst (fst (deleteProjectGroup m data log)) = data)
  /\ snd (deleteProjectGroup m data log)
     = (log ++ [mkRequest DELETE projectGroupsUrl
                          (pathParamsOf (unpackProjectGroup data)) None])%list.
Proof.
  unfold deleteProjectGroup, bind, execute, ret. split; [| split].
  - intros resp H. rewrite H. now repeat split.
  - intros err H. rewrite H. now split.
  - now destruct (roundTrip m log _).
Qed.

Lemma delete_clears_identity_witness :
  data_id (fst (fst (deleteProjectGroup Samples.stubGroups Samples.devs []))) = ""
  /\ fst (deleteProjectGroup Samples.downGroups Samples.devs [])
     = (Samples.devs, ["connection refused"]).
Proof.
  split.
  - apply (proj1 (delete_clears_identity Samples.stubGroups Samples.devs [])
             tt eq_refl).
  - destruct (proj1 (proj2 (delete_clears_identity Samples.downGroups
                              Samples.devs []))
                "connection refused" eq_refl) as [H1 H2].
    rewrite (surjective_pairing
               (fst (deleteProjectGroup Samples.downGroups Samples.devs []))).
    now rewrite H1, H2.
Defined.

Lemma import_of_id (d : ResourceData) (pk n : string) :
  pk <> "" -> n <> "" -> any_chars is_colon pk = false ->
  data_id d = Id (mkProjectGroup pk n []) ->
  importForProjectKeyGroupName d = ([mkData (data_id d) pk n (roles d)], None).
Proof.
  intros Hpk Hn Hc E. rewrite (import_first_colon d pk n E Hc).
  apply String.eqb_neq in Hpk. apply String.eqb_neq in Hn. now rewrite Hpk, Hn.
Qed.

(** C6: for a non-empty project key and a non-empty name, both without a
    colon, a successful [upsertProjectGroup] sets the identity to the key
    and the name joined by the separator, and importing any state that
    carries this identity gives back exactly that key as [project_key] and
    that name as [name], with no error. *)
Theorem membership_identity_roundtrip (m : Client) (data : ResourceData)
  (log : list (Request Body)) (resp : Response m) :
  project_key data <> "" -> name data <> "" ->
  any_chars is_colon (project_key data) = false ->
  any_chars is_colon (name data) = false ->
  roundTrip m log (mkRequest PUT projectGroupsUrl
                             (pathParamsOf (unpackProjectGroup data))
                             (Some (unpackProjectGroup data)))
  = Done resp ->
  data_id (fst (fst (upsertProjectGroup m data log)))
  = project_key data ++ ":" ++ name data
  /\ forall d0,
       data_id d0 = data_id (fst (fst (upsertProjectGroup m data log))) ->
       importForProjectKeyGroupName d0
       = ([mkData (data_id d0) (project_key data) (name data) (roles d0)],
          None).
Proof.
  intros Hpk Hn Hc _ Hput.
  assert (E : data_id (fst (fst (upsertProjectGroup m data log)))
              = project_key data ++ ":" ++ name data).
  { unfold upsertProjectGroup, bind, execute, ret. rewrite Hput.
    now rewrite readProjectGroup_id. }
  split; [exact E |].
  intros d0 H0. apply import_of_id; try assumption.
  now rewrite H0, E.
Qed.

Lemma membership_identity_roundtrip_witness :
  data_id (fst (fst (upsertProjectGroup Samples.stubGroups
                       (mkData "" "abc" "devs" ["developer"]) [])))
  = "abc:devs"
  /\ importForProjectKeyGroupName (mkData "abc:devs" "" "" [])
     = ([mkData "abc:devs" "abc" "devs" []], None).
Proof.
  assert (H := membership_identity_roundtrip Samples.stubGroups
                 (mkData "" "abc" "devs" ["developer"]) [] tt).
  cbn [project_key name] in H.
  specialize (H ltac:(discriminate) ltac:(discriminate) eq_refl eq_refl eq_refl).
  destruct H as [H1 H2]. split; [exact H1 |].
  apply (H2 (mkData "abc:devs" "" "" [])). symmetry. exact H1.
Defined.

(** ** Creating a project from an empty privileges block *)

Lemma readProject_id (m : Projects.Client) (data : Projects.ResourceData)
  (log : list (Request Projects.Body)) :
  Projects.data_id (fst (fst (Projects.readProject m data log)))
  = Projects.data_id data.
Proof.
  unfold Projects.readProject, bind, Projects.execute, ret.
  now destruct (Projects.roundTrip m log _).
Qed.

Lemma readProject_log (m : Projects.Client) (data : Projects.ResourceData)
  (log : list (Request Projects.Body)) :
  snd (Projects.readProject m data log)
  = (log ++ [mkRequest GET (Projects.projectsUrl ++ Projects.data_id data)
                       [] None])%list.
Proof.
  unfold Projects.readProject, bind, Projects.execute, ret.
  now destruct (Projects.roundTrip m log _).
Qed.

(** C10, as stated, fails when the POST itself fails: with an empty
    [admin_privileges] set and a remote side that cannot be reached,
    [createProject] returns the transport error after the POST; no GET is
    issued, so no read is chained. *)
Lemma create_empty_privileges_post_failure :
  Projects.admin_privileges Samples.emptyPrivileges = Some []
  /\ Projects.createProject Arch64 Samples.downProjects
       Samples.emptyPrivileges []
     = ((Samples.emptyPrivileges, ["connection refused"]),
        [mkRequest POST Projects.projectsUrl [] (Some None)])
  /\ ~ posts_then_reads Arch64 Samples.downProjects Samples.emptyPrivileges [].
Proof.
  split; [reflexivity |]. split; [reflexivity |].
  intros [_ [H _]]. discriminate H.
Qed.

(** C10, amended: with an [admin_privileges] set that is present and
    empty, the unpack step reports no error and [createProject] does not
    stop there: its first request is the POST to the projects endpoint
    with a null body.  If that POST returns without error, it sets the
    identity to the empty string and chains into [readProject], whose GET
    goes to the bare projects URL.  If the POST fails, [createProject]
    returns that error and leaves the state as it was. *)
Theorem create_with_empty_privileges (arch : Arch) (m : Projects.Client)
  (data : Projects.ResourceData) (log : list (Request Projects.Body)) :
  Projects.admin_privileges data = Some [] ->
  Projects.unpackProject arch data = (None, "", None)
  /\ (exists rest,
        snd (Projects.createProject arch m data log)
        = (log ++ mkRequest POST Projects.projectsUrl [] (Some None) :: rest)%list)
  /\ (forall r,
        Projects.roundTrip m log
          (mkRequest POST Projects.projectsUrl [] (Some None)) = Done r ->
        Projects.createProject arch m data log
        = Projects.readProject m (Projects.SetId "" data)
            (log ++ [mkRequest POST Projects.projectsUrl [] (Some None)])%list
        /\ posts_then_reads arch m data log)
  /\ (forall e,
        Projects.roundTrip m log
          (mkRequest POST Projects.projectsUrl [] (Some None)) = Failed e ->
        Projects.createProject arch m data log
        = ((data, FromErr e),
           (log ++ [mkRequest POST Projects.projectsUrl [] (Some None)])%list)).
Proof.
  intros Hempty.
  assert (U : Projects.unpackProject arch data = (None, "", None))
    by (unfold Projects.unpackProject; now rewrite Hempty).
  assert (D : forall r,
             Projects.roundTrip m log
               (mkRequest POST Projects.projectsUrl [] (Some None)) = Done r ->
             Projects.createProject arch m data log
             = Projects.readProject m (Projects.SetId "" data)
                 (log ++ [mkRequest POST Projects.projectsUrl [] (Some None)])%list).
  { intros r Hr. unfold Projects.createProject. rewrite U.
    unfold bind, Projects.execute. now rewrite Hr. }
  assert (F : forall e,
             Projects.roundTrip m log
               (mkRequest POST Projects.projectsUrl [] (Some None)) = Failed e ->
             Projects.createProject arch m data log
             = ((data, FromErr e),
                (log ++ [mkRequest POST Projects.projectsUrl [] (Some None)])%list)).
  { intros e He. unfold Projects.createProject. rewrite U.
    unfold bind, Projects.execute, ret. now rewrite He. }
  split; [exact U |]. split; [| split; [| exact F]].
  - destruct (Projects.roundTrip m log
                (mkRequest POST Projects.projectsUrl [] (Some None)))
      as [r | e] eqn:E.
    + exists [mkRequest GET Projects.projectsUrl [] None].
      rewrite (D r eq_refl), readProject_log, <- app_assoc. reflexivity.
    + exists []. now rewrite (F e eq_refl).
  - intros r Hr. split; [exact (D r Hr) |].
    unfold posts_then_reads. rewrite (D r Hr), U. split; [reflexivity |]. split.
    + rewrite readProject_log, <- app_assoc. reflexivity.
    + now rewrite readProject_id.
Qed.

Lemma create_with_empty_privileges_witness :
  Projects.unpackProject Arch64 Samples.emptyPrivileges = (None, "", None)
  /\ posts_then_reads Arch64 Samples.stubProjects Samples.emptyPrivileges [].
Proof.
  destruct (create_with_empty_privileges Arch64 Samples.stubProjects
              Samples.emptyPrivileges [] eq_refl) as [U [_ [D _]]].
  split; [exact U |].
  destruct (D tt eq_refl) as [_ L]. exact L.
Defined.

(** * Further properties of the project resource *)

(** ** Which changes the diff suppression hides *)

Lemma modulus_pos (a : Arch) : 0 < modulus a.
Proof. destruct a; reflexivity. Qed.

Lemma wrap_eq_iff (a : Arch) (x y : Z) :
  wrap a x = wrap a y <-> (modulus a | y - x).
Proof.
  pose proof (modulus_pos a) as Hm. unfold wrap. split.
  - intros H.
    assert (E : (x + half a) mod modulus a = (y + half a) mod modulus a) by lia.
    rewrite (Z.mod_eq (x + half a)), (Z.mod_eq (y + half a)) in E by lia.
    exists ((y + half a) / modulus a - (x + half a) / modulus a). lia.
  - intros [q Hq]. replace (y + half a) with (x + half a + q * modulus a) by lia.
    now rewrite Z_mod_plus_full.
Qed.

Lemma modulus_gigabyte (a : Arch) :
  modulus a = 2 ^ (intSize a - 30) * 1024 ^ 3.
Proof. destruct a; reflexivity. Qed.

Lemma wrap_bytes_eq_iff (arch : Arch) (a b : Z) :
  wrap arch (a * 1024 ^ 3) = wrap arch (b * 1024 ^ 3)
  <-> (2 ^ (intSize arch - 30) | b - a).
Proof.
  rewrite wrap_eq_iff, modulus_gigabyte.
  replace (b * 1024 ^ 3 - a * 1024 ^ 3) with ((b - a) * 1024 ^ 3) by ring.
  apply Z.mul_divide_cancel_r. discriminate.
Qed.

(** X1: The predicate returns [true] exactly when both strings parse and the
    two values differ by a multiple of [2^(w-30)], [w] being the width of
    [int]: the low [w-30] bits of the gigabyte values are all it
    compares. *)
Theorem diff_suppress_exact (arch : Arch) (k old new : string)
  (d : Projects.ResourceData) :
  Projects.DiffSuppressFunc arch k old new d = true
  <-> exists a b, Atoi arch old = inl a /\ Atoi arch new = inl b
                  /\ (2 ^ (intSize arch - 30) | b - a).
Proof.
  split.
  - intros H. destruct (Atoi arch old) as [a | e] eqn:Ha;
      [| unfold Projects.DiffSuppressFunc in H; now rewrite Ha in H].
    destruct (Atoi arch new) as [b | e] eqn:Hb;
      [| unfold Projects.DiffSuppressFunc in H; now rewrite Ha, Hb in H].
    exists a, b. repeat split.
    rewrite (DiffSuppressFunc_parsed arch k old new d a b Ha Hb) in H.
    apply Z.eqb_eq in H. now apply wrap_bytes_eq_iff.
  - intros [a [b [Ha [Hb Hd]]]].
    rewrite (DiffSuppressFunc_parsed arch k old new d a b Ha Hb).
    apply Z.eqb_eq. symmetry. now apply wrap_bytes_eq_iff.
Qed.

(** X2: When both byte counts fit in an [int], a change is suppressed only if
    the two gigabyte values are equal: in that range no real change is
    hidden. *)
Theorem diff_suppress_faithful (arch : Arch) (k old new : string)
  (d : Projects.ResourceData) (a b : Z) :
  Atoi arch old = inl a -> Atoi arch new = inl b ->
  in_range arch (a * 1024 ^ 3) = true ->
  in_range arch (b * 1024 ^ 3) = true ->
  (Projects.DiffSuppressFunc arch k old new d = true <-> a = b).
Proof.
  intros Ha Hb Ra Rb.
  rewrite (DiffSuppressFunc_parsed arch k old new d a b Ha Hb).
  rewrite (wrap_in_range arch _ Ra), (wrap_in_range arch _ Rb).
  rewrite Z.eqb_eq. lia.
Qed.

Lemma diff_suppress_faithful_witness :
  Projects.DiffSuppressFunc Arch64 "max_storage_in_gigabytes" "10" "+10"
    Samples.emptyPrivileges = true
  <-> 10 = 10.
Proof.
  apply (diff_suppress_faithful Arch64 _ "10" "+10" Samples.emptyPrivileges
           10 10); reflexivity.
Defined.

(** X3: Suppression ignores the attribute path and the state, is symmetric in
    the two values and is transitive. *)
Theorem diff_suppress_equivalence (arch : Arch) (k k' : string)
  (x y z : string) (d d' : Projects.ResourceData) :
  Projects.DiffSuppressFunc arch k x y d
  = Projects.DiffSuppressFunc arch k' y x d'
  /\ (Projects.DiffSuppressFunc arch k x y d = true ->
      Projects.DiffSuppressFunc arch k y z d = true ->
      Projects.DiffSuppressFunc arch k x z d = true).
Proof.
  split.
  - unfold Projects.DiffSuppressFunc.
    destruct (Atoi arch x) as [a | e], (Atoi arch y) as [b | e'];
      try reflexivity.
    apply Z.eqb_sym.
  - unfold Projects.DiffSuppressFunc.
    destruct (Atoi arch x) as [a | e], (Atoi arch y) as [b | e'],
             (Atoi arch z) as [c | e'']; try discriminate; try (intros; assumption).
    rewrite !Z.eqb_eq. congruence.
Qed.

Lemma diff_suppress_equivalence_witness :
  Projects.DiffSuppressFunc Arch64 "k" "1" "17179869185"
    Samples.emptyPrivileges = true.
Proof.
  apply (proj2 (diff_suppress_equivalence Arch64 "k" "k"
                  "1" "01" "17179869185"
                  Samples.emptyPrivileges Samples.emptyPrivileges));
    reflexivity.
Defined.

(** ** Validation of the quota *)

Lemma maxStorageValidate_cases (v : Z) :
  maxStorageValidate v
  = if (1 <=? v) || (v =? -1) then ([], [])
    else ([], [NotAtLeast "max_storage_in_gigabytes" 1 v;
               NotOneOf "max_storage_in_gigabytes" [-1] v]).
Proof.
  unfold maxStorageValidate, Any, AnyFrom, IntAtLeast, IntInSlice.
  cbn [existsb]. rewrite orb_false_r.
  destruct (v <? 1) eqn:H1.
  - assert (H1' : (1 <=? v) = false)
      by (apply Z.leb_gt; now apply Z.ltb_lt).
    rewrite H1'. cbn. now destruct (v =? -1).
  - assert (H1' : (1 <=? v) = true)
      by (apply Z.leb_le; apply Z.ltb_ge in H1; lia).
    now rewrite H1'.
Qed.

(** X4: The quota validation reports nothing exactly for the values that are
    at least 1 or equal to [-1]; every other value is reported by both
    validators, in their order. *)
Theorem max_storage_validation (v : Z) :
  (maxStorageValidate v = ([], []) <-> 1 <= v \/ v = -1)
  /\ (~ (1 <= v \/ v = -1) ->
      maxStorageValidate v
      = ([], [NotAtLeast "max_storage_in_gigabytes" 1 v;
              NotOneOf "max_storage_in_gigabytes" [-1] v])).
Proof.
  rewrite maxStorageValidate_cases.
  destruct ((1 <=? v) || (v =? -1)) eqn:E.
  - apply orb_true_iff in E. rewrite Z.leb_le, Z.eqb_eq in E.
    split; [tauto | intros N; contradiction].
  - apply orb_false_iff in E. rewrite Z.leb_gt, Z.eqb_neq in E.
    split; [| reflexivity]. split; [discriminate | lia].
Qed.

Lemma max_storage_validation_witness :
  maxStorageValidate 0
  = ([], [NotAtLeast "max_storage_in_gigabytes" 1 0;
          NotOneOf "max_storage_in_gigabytes" [-1] 0]).
Proof.
  apply (proj2 (max_storage_validation 0)). lia.
Defined.

Lemma diff_suppress_exact_witness :
  Projects.DiffSuppressFunc Arch32 "k" "3" "7" Samples.emptyPrivileges = true.
Proof.
  apply (proj2 (diff_suppress_exact Arch32 "k" "3" "7"
                  Samples.emptyPrivileges)).
  exists 3, 7. split; [reflexivity |]. split; [reflexivity |].
  exists 1. reflexivity.
Defined.

(** ** Pack and unpack as inverse mappings *)

Lemma unpackProject_no_error (arch : Arch) (d : Projects.ResourceData) :
  snd (Projects.unpackProject arch d) = None.
Proof.
  unfold Projects.unpackProject.
  now destruct (Projects.admin_privileges d) as [[| blk rest] |].
Qed.

(** X5: [unpackProject] never returns an error.  It returns [nil] exactly when
    the [admin_privileges] set is present and empty, and then the
    identifier is empty; otherwise the identifier is the [key] attribute,
    which is also the [Key], and so the [Id], of the project returned. *)
Theorem unpack_project_result (arch : Arch) (d : Projects.ResourceData) :
  snd (Projects.unpackProject arch d) = None
  /\ (fst (fst (Projects.unpackProject arch d)) = None
      <-> Projects.admin_privileges d = Some [])
  /\ (Projects.admin_privileges d = Some [] ->
      snd (fst (Projects.unpackProject arch d)) = "")
  /\ (forall p, fst (fst (Projects.unpackProject arch d)) = Some p ->
        snd (fst (Projects.unpackProject arch d)) = Projects.Id p
        /\ Projects.Id p = Projects.key d).
Proof.
  unfold Projects.unpackProject.
  destruct (Projects.admin_privileges d) as [[| blk rest] |]; cbn.
  - split; [reflexivity |]. split; [now split |]. split; [reflexivity |].
    intros p Hp. discriminate Hp.
  - split; [reflexivity |]. split; [split; discriminate |].
    split; [discriminate |]. intros p Hp. injection Hp as <-. now split.
  - split; [reflexivity |]. split; [split; discriminate |].
    split; [discriminate |]. intros p Hp. injection Hp as <-. now split.
Qed.

Lemma unpack_project_result_witness :
  snd (fst (Projects.unpackProject Arch64 Samples.emptyPrivileges)) = "".
Proof.
  apply (proj1 (proj2 (proj2 (unpack_project_result Arch64
                                Samples.emptyPrivileges)))).
  reflexivity.
Defined.

(** X6: Packing a project into any state and unpacking that state gives the
    project back, with its key as identifier, provided the project has
    admin privileges and its quota survives the conversion to gigabytes
    and back.  Nothing of the state packed into survives. *)
Theorem pack_then_unpack_project (arch : Arch) (d : Projects.ResourceData)
  (p : Projects.Project) (ap : Projects.AdminPrivileges) :
  Projects.AdminPrivilegesPtr p = Some ap ->
  Projects.GigabytlesToBytes arch
    (Projects.BytesToGigabytles (Projects.StorageQuota p))
  = Projects.StorageQuota p ->
  Projects.unpackProject arch (fst (Projects.packProject d p))
  = (Some p, Projects.Key p, None).
Proof.
  intros Hap RT.
  unfold Projects.unpackProject, Projects.packProject.
  cbn [fst Projects.admin_privileges]. rewrite Hap.
  cbn. rewrite RT. destruct p as [k dn de app sq sl qe]. cbn in *.
  subst app. now destruct ap.
Qed.

Lemma pack_then_unpack_project_witness :
  Projects.unpackProject Arch64
    (fst (Projects.packProject Samples.emptyPrivileges
            (Projects.mkProject "abc" "ABC" "demo"
               (Some (Projects.mkAdminPrivileges true false true))
               (2 * 1024 ^ 3) true false)))
  = (Some (Projects.mkProject "abc" "ABC" "demo"
             (Some (Projects.mkAdminPrivileges true false true))
             (2 * 1024 ^ 3) true false), "abc", None).
Proof.
  apply (pack_then_unpack_project Arch64 Samples.emptyPrivileges
           (Projects.mkProject "abc" "ABC" "demo"
              (Some (Projects.mkAdminPrivileges true false true))
              (2 * 1024 ^ 3) true false)
           (Projects.mkAdminPrivileges true false true));
    reflexivity.
Defined.

Lemma pack_unpacked (arch : Arch) (d : Projects.ResourceData)
  (blk : Projects.PrivilegesBlock) :
  Projects.admin_privileges d = Some [blk] ->
  Projects.BytesToGigabytles
    (Projects.GigabytlesToBytes arch (Projects.max_storage_in_gigabytes d))
  = Projects.max_storage_in_gigabytes d ->
  exists p,
    Projects.unpackProject arch d = (Some p, Projects.key d, None)
    /\ Projects.packProject d p = (d, []).
Proof.
  intros Hb RT. unfold Projects.unpackProject. rewrite Hb.
  eexists. split; [reflexivity |].
  unfold Projects.packProject. cbn. rewrite RT.
  destruct d as [i k dn de app g bl en]. cbn in *. subst app.
  now destruct blk.
Qed.

(** X7: Unpacking a state and packing the project obtained back into it
    changes nothing, when the state holds exactly one privileges block and
    its quota survives the conversion to bytes and back. *)
Theorem unpack_then_pack_state (arch : Arch) (d : Projects.ResourceData)
  (blk : Projects.PrivilegesBlock) :
  Projects.admin_privileges d = Some [blk] ->
  Projects.BytesToGigabytles
    (Projects.GigabytlesToBytes arch (Projects.max_storage_in_gigabytes d))
  = Projects.max_storage_in_gigabytes d ->
  exists p,
    Projects.unpackProject arch d = (Some p, Projects.key d, None)
    /\ fst (Projects.packProject d p) = d
    /\ snd (Projects.packProject d p) = [].
Proof.
  intros Hb RT.
  destruct (pack_unpacked arch d blk Hb RT) as [p [U P]].
  exists p. rewrite P. now repeat split.
Qed.

Lemma unpack_then_pack_state_witness :
  exists p,
    Projects.unpackProject Arch64
      (Projects.mkData "abc" "abc" "ABC" ""
         (Some [Projects.mkBlock true true false]) 5 false true)
    = (Some p, "abc", None)
    /\ fst (Projects.packProject
              (Projects.mkData "abc" "abc" "ABC" ""
                 (Some [Projects.mkBlock true true false]) 5 false true) p)
       = Projects.mkData "abc" "abc" "ABC" ""
           (Some [Projects.mkBlock true true false]) 5 false true.
Proof.
  destruct (unpack_then_pack_state Arch64
              (Projects.mkData "abc" "abc" "ABC" ""
                 (Some [Projects.mkBlock true true false]) 5 false true)
              (Projects.mkBlock true true false) eq_refl eq_refl)
    as [p [U [P _]]].
  exists p. split; assumption.
Defined.

(** ** The CRUD closures of the project resource *)

Lemma readProject_done (m : Projects.Client) (data : Projects.ResourceData)
  (log : list (Request Projects.Body)) (resp : Projects.Response m) :
  Projects.roundTrip m log
    (mkRequest GET (Projects.projectsUrl ++ Projects.data_id data) [] None)
  = Done resp ->
  Projects.readProject m data log
  = (Projects.packProject data
       (Projects.intoProject m resp Projects.zeroProject),
     (log ++ [mkRequest GET (Projects.projectsUrl ++ Projects.data_id data)
                        [] None])%list).
Proof.
  intros H. unfold Projects.readProject, bind, Projects.execute, ret.
  now rewrite H.
Qed.

Lemma readProject_failed (m : Projects.Client) (data : Projects.ResourceData)
  (log : list (Request Projects.Body)) (e : string) :
  Projects.roundTrip m log
    (mkRequest GET (Projects.projectsUrl ++ Projects.data_id data) [] None)
  = Failed e ->
  Projects.readProject m data log
  = ((data, FromErr e),
     (log ++ [mkRequest GET (Projects.projectsUrl ++ Projects.data_id data)
                        [] None])%list).
Proof.
  intros H. unfold Projects.readProject, bind, Projects.execute, ret.
  now rewrite H.
Qed.

(** X8: [readProject] issues exactly one request, the GET on the projects URL
    followed by the identity, and never changes the identity.  When the
    GET fails the state is returned untouched with the error.  When it
    succeeds there are no diagnostics and every scalar attribute of the
    previous state is forgotten: two states with the same identity and
    the same privileges block are read into the same state (and the
    privileges block does not matter either when the response carries
    one). *)
Theorem read_project_outcomes (m : Projects.Client)
  (data : Projects.ResourceData) (log : list (Request Projects.Body)) :
  snd (Projects.readProject m data log)
  = (log ++ [mkRequest GET (Projects.projectsUrl ++ Projects.data_id data)
                       [] None])%list
  /\ Projects.data_id (fst (fst (Projects.readProject m data log)))
     = Projects.data_id data
  /\ (forall e,
        Projects.roundTrip m log
          (mkRequest GET (Projects.projectsUrl ++ Projects.data_id data)
                     [] None) = Failed e ->
        fst (Projects.readProject m data log) = (data, FromErr e))
  /\ (forall resp,
        Projects.roundTrip m log
          (mkRequest GET (Projects.projectsUrl ++ Projects.data_id data)
                     [] None) = Done resp ->
        snd (fst (Projects.readProject m data log)) = []
        /\ forall other,
             Projects.data_id other = Projects.data_id data ->
             Projects.admin_privileges other = Projects.admin_privileges data
             \/ Projects.AdminPrivilegesPtr
                  (Projects.intoProject m resp Projects.zeroProject) <> None ->
             Projects.readProject m other log
             = Projects.readProject m data log).
Proof.
  split; [apply readProject_log |]. split; [apply readProject_id |]. split.
  - intros e H. now rewrite (readProject_failed m data log e H).
  - intros resp H. rewrite (readProject_done m data log resp H).
    split; [reflexivity |]. intros other Hid Hpriv.
    assert (H' : Projects.roundTrip m log
                   (mkRequest GET
                      (Projects.projectsUrl ++ Projects.data_id other) [] None)
                 = Done resp) by (now rewrite Hid).
    rewrite (readProject_done m other log resp H'), Hid.
    f_equal. unfold Projects.packProject. rewrite Hid.
    destruct (Projects.AdminPrivilegesPtr
                (Projects.intoProject m resp Projects.zeroProject))
      as [ap |] eqn:Hap; [reflexivity |].
    destruct Hpriv as [Hpriv | Hpriv]; [now rewrite Hpriv | contradiction].
Qed.

Lemma read_project_outcomes_witness :
  Projects.readProject Samples.stubProjects
    (Projects.mkData "" "zzz" "Z" "old" (Some []) 7 true true) []
  = Projects.readProject Samples.stubProjects Samples.emptyPrivileges [].
Proof.
  destruct (proj2 (proj2 (proj2 (read_project_outcomes Samples.stubProjects
                                   Samples.emptyPrivileges []))) tt eq_refl)
    as [_ H].
  apply H; [reflexivity | left; reflexivity].
Defined.

Lemma createProject_step (arch : Arch) (m : Projects.Client)
  (data : Projects.ResourceData) (log : list (Request Projects.Body)) :
  Projects.createProject arch m data log
  = match Projects.roundTrip m log
            (mkRequest POST Projects.projectsUrl []
               (Some (fst (fst (Projects.unpackProject arch data))))) with
    | Failed e =>
        ((data, FromErr e),
         (log ++ [mkRequest POST Projects.projectsUrl []
                    (Some (fst (fst (Projects.unpackProject arch data))))])%list)
    | Done _ =>
        Projects.readProject m
          (Projects.SetId (snd (fst (Projects.unpackProject arch data))) data)
          (log ++ [mkRequest POST Projects.projectsUrl []
                     (Some (fst (fst (Projects.unpackProject arch data))))])%list
    end.
Proof.
  pose proof (unpackProject_no_error arch data) as E.
  unfold Projects.createProject.
  destruct (Projects.unpackProject arch data) as [[project key] err].
  cbn in E. subst err. cbn [fst snd]. unfold bind, Projects.execute, ret.
  now destruct (Projects.roundTrip m log _).
Qed.

(** X9: [createProject] always sends the POST to the projects URL, with what
    [unpackProject] returned as body.  If the POST fails, that is the
    only request, and the state is returned untouched with the error.  If
    it succeeds, the identity becomes the identifier unpacked and one GET
    on the projects URL followed by that identifier is sent; should this
    GET fail, the error is returned and the identity stays set. *)
Theorem create_project_outcomes (arch : Arch) (m : Projects.Client)
  (data : Projects.ResourceData) (log : list (Request Projects.Body))
  (project : option Projects.Project) (key : string) :
  fst (Projects.unpackProject arch data) = (project, key) ->
  (forall e,
     Projects.roundTrip m log
       (mkRequest POST Projects.projectsUrl [] (Some project)) = Failed e ->
     Projects.createProject arch m data log
     = ((data, FromErr e),
        (log ++ [mkRequest POST Projects.projectsUrl [] (Some project)])%list))
  /\ (forall r,
        Projects.roundTrip m log
          (mkRequest POST Projects.projectsUrl [] (Some project)) = Done r ->
        snd (Projects.createProject arch m data log)
        = (log ++ [mkRequest POST Projects.projectsUrl [] (Some project);
                   mkRequest GET (Projects.projectsUrl ++ key) [] None])%list
        /\ Projects.data_id (fst (fst (Projects.createProject arch m data log)))
           = key
        /\ forall e,
             Projects.roundTrip m
               (log ++ [mkRequest POST Projects.projectsUrl [] (Some project)])
               (mkRequest GET (Projects.projectsUrl ++ key) [] None)
             = Failed e ->
             fst (Projects.createProject arch m data log)
             = (Projects.SetId key data, FromErr e)).
Proof.
  intros U. rewrite createProject_step, U. cbn [fst snd]. split.
  - intros e H. now rewrite H.
  - intros r H. rewrite H. split; [| split].
    + rewrite readProject_log, <- app_assoc. reflexivity.
    + now rewrite readProject_id.
    + intros e He.
      now rewrite (readProject_failed m (Projects.SetId key data) _ e He).
Qed.

Lemma create_project_outcomes_witness :
  Projects.createProject Arch64 Samples.downProjects
    (Projects.mkData "" "abc" "ABC" ""
       (Some [Projects.mkBlock true true true]) (-1) false false) []
  = ((Projects.mkData "" "abc" "ABC" ""
        (Some [Projects.mkBlock true true true]) (-1) false false,
      ["connection refused"]),
     [mkRequest POST Projects.projectsUrl []
        (Some (Some (Projects.mkProject "abc" "ABC" ""
                       (Some (Projects.mkAdminPrivileges true true true))
                       (-1) false false)))]).
Proof.
  apply (proj1 (create_project_outcomes Arch64 Samples.downProjects
                  (Projects.mkData "" "abc" "ABC" ""
                     (Some [Projects.mkBlock true true true]) (-1) false false)
                  []
                  (Some (Projects.mkProject "abc" "ABC" ""
                           (Some (Projects.mkAdminPrivileges true true true))
                           (-1) false false))
                  "abc" eq_refl) "connection refused" eq_refl).
Defined.

(** X10: When the remote side answers the read with the very project that was
    posted, creating leaves the configuration as it was and only sets the
    identity to the key: nothing is left to reconcile.  The state must
    hold one privileges block and a quota that survives the conversion to
    bytes and back. *)
Theorem create_echo_is_stable (arch : Arch) (m : Projects.Client)
  (data : Projects.ResourceData) (log : list (Request Projects.Body))
  (blk : Projects.PrivilegesBlock) (p : Projects.Project)
  (r1 r2 : Projects.Response m) :
  Projects.admin_privileges data = Some [blk] ->
  Projects.BytesToGigabytles
    (Projects.GigabytlesToBytes arch (Projects.max_storage_in_gigabytes data))
  = Projects.max_storage_in_gigabytes data ->
  fst (fst (Projects.unpackProject arch data)) = Some p ->
  Projects.roundTrip m log
    (mkRequest POST Projects.projectsUrl [] (Some (Some p))) = Done r1 ->
  Projects.roundTrip m
    (log ++ [mkRequest POST Projects.projectsUrl [] (Some (Some p))])
    (mkRequest GET (Projects.projectsUrl ++ Projects.key data) [] None)
  = Done r2 ->
  Projects.intoProject m r2 Projects.zeroProject = p ->
  Projects.createProject arch m data log
  = ((Projects.SetId (Projects.key data) data, []),
     (log ++ [mkRequest POST Projects.projectsUrl [] (Some (Some p));
              mkRequest GET (Projects.projectsUrl ++ Projects.key data)
                        [] None])%list).
Proof.
  intros Hb RT Hp Hpost Hget Hecho.
  destruct (pack_unpacked arch (Projects.SetId (Projects.key data) data) blk
              Hb RT) as [p' [U P]].
  change (Projects.unpackProject arch (Projects.SetId (Projects.key data) data))
    with (Projects.unpackProject arch data) in U.
  change (Projects.key (Projects.SetId (Projects.key data) data))
    with (Projects.key data) in U.
  rewrite U in Hp. cbn in Hp. injection Hp as ->.
  rewrite createProject_step, U. cbn [fst snd]. rewrite Hpost.
  rewrite (readProject_done m (Projects.SetId (Projects.key data) data) _ r2 Hget).
  rewrite Hecho, P, <- app_assoc. reflexivity.
Qed.

Lemma create_echo_is_stable_witness :
  Projects.createProject Arch64
    (Projects.mkClient unit (fun _ _ => Done tt)
       (fun _ _ => Projects.mkProject "abc" "ABC" ""
                     (Some (Projects.mkAdminPrivileges true true true))
                     (-1) false false))
    (Projects.mkData "" "abc" "ABC" "" (Some [Projects.mkBlock true true true])
       (-1) false false) []
  = ((Projects.mkData "abc" "abc" "ABC" ""
        (Some [Projects.mkBlock true true true]) (-1) false false, []),
     [mkRequest POST Projects.projectsUrl []
        (Some (Some (Projects.mkProject "abc" "ABC" ""
                       (Some (Projects.mkAdminPrivileges true true true))
                       (-1) false false)));
      mkRequest GET "/access/api/v1/projects/abc" [] None]).
Proof.
  apply (create_echo_is_stable Arch64
           (Projects.mkClient unit (fun _ _ => Done tt)
              (fun _ _ => Projects.mkProject "abc" "ABC" ""
                            (Some (Projects.mkAdminPrivileges true true true))
                            (-1) false false))
           (Projects.mkData "" "abc" "ABC" ""
              (Some [Projects.mkBlock true true true]) (-1) false false)
           [] (Projects.mkBlock true true true)
           (Projects.mkProject "abc" "ABC" ""
              (Some (Projects.mkAdminPrivileges true true true))
              (-1) false false) tt tt);
    reflexivity.
Defined.

Lemma updateProject_step (arch : Arch) (m : Projects.Client)
  (data : Projects.ResourceData) (log : list (Request Projects.Body)) :
  Projects.updateProject arch m data log
  = match Projects.roundTrip m log
            (mkRequest PUT (Projects.projectsUrl ++ Projects.data_id data) []
               (Some (fst (fst (Projects.unpackProject arch data))))) with
    | Failed e =>
        ((data, FromErr e),
         (log ++ [mkRequest PUT (Projects.projectsUrl ++ Projects.data_id data)
                    [] (Some (fst (fst (Projects.unpackProject arch data))))])%list)
    | Done _ =>
        Projects.readProject m
          (Projects.SetId (snd (fst (Projects.unpackProject arch data))) data)
          (log ++ [mkRequest PUT (Projects.projectsUrl ++ Projects.data_id data)
                     [] (Some (fst (fst (Projects.unpackProject arch data))))])%list
    end.
Proof.
  pose proof (unpackProject_no_error arch data) as E.
  unfold Projects.updateProject.
  destruct (Projects.unpackProject arch data) as [[project key] err].
  cbn in E. subst err. cbn [fst snd]. unfold bind, Projects.execute, ret.
  now destruct (Projects.roundTrip m log _).
Qed.

(** X11: [updateProject] sends the PUT to the projects URL followed by the
    current identity.  If the PUT fails, nothing else is sent and the
    state is returned untouched with the error.  If it succeeds, the
    identity is replaced by the identifier unpacked (the configured key)
    and the GET that follows goes to that identifier, not to the identity
    the PUT was addressed to. *)
Theorem update_project_outcomes (arch : Arch) (m : Projects.Client)
  (data : Projects.ResourceData) (log : list (Request Projects.Body))
  (project : option Projects.Project) (key : string) :
  fst (Projects.unpackProject arch data) = (project, key) ->
  (forall e,
     Projects.roundTrip m log
       (mkRequest PUT (Projects.projectsUrl ++ Projects.data_id data) []
                  (Some project)) = Failed e ->
     Projects.updateProject arch m data log
     = ((data, FromErr e),
        (log ++ [mkRequest PUT (Projects.projectsUrl ++ Projects.data_id data)
                           [] (Some project)])%list))
  /\ (forall r,
        Projects.roundTrip m log
          (mkRequest PUT (Projects.projectsUrl ++ Projects.data_id data) []
                     (Some project)) = Done r ->
        snd (Projects.updateProject arch m data log)
        = (log ++ [mkRequest PUT (Projects.projectsUrl ++ Projects.data_id data)
                             [] (Some project);
                   mkRequest GET (Projects.projectsUrl ++ key) [] None])%list
        /\ Projects.data_id (fst (fst (Projects.updateProject arch m data log)))
           = key).
Proof.
  intros U. rewrite updateProject_step, U. cbn [fst snd]. split.
  - intros e H. now rewrite H.
  - intros r H. rewrite H. split.
    + rewrite readProject_log, <- app_assoc. reflexivity.
    + now rewrite readProject_id.
Qed.

Lemma update_project_outcomes_witness :
  Projects.data_id
    (fst (fst (Projects.updateProject Arch64 Samples.stubProjects
                 (Projects.mkData "old" "abc" "ABC" "" None (-1) false false)
                 [])))
  = "abc".
Proof.
  apply (proj2 (update_project_outcomes Arch64 Samples.stubProjects
                  (Projects.mkData "old" "abc" "ABC" "" None (-1) false false)
                  []
                  (Some (Projects.mkProject "abc" "ABC" "" None (-1) false false))
                  "abc" eq_refl) tt eq_refl).
Defined.

(** X12: Updating a project whose [admin_privileges] set is present and empty
    sends a PUT with a null body to the current identity and, when that
    PUT succeeds, replaces the identity by the empty string: the state no
    longer names the project, and the GET that follows goes to the bare
    projects URL. *)
Theorem update_empty_privileges_drops_identity (arch : Arch)
  (m : Projects.Client) (data : Projects.ResourceData)
  (log : list (Request Projects.Body)) (r : Projects.Response m) :
  Projects.admin_privileges data = Some [] ->
  Projects.roundTrip m log
    (mkRequest PUT (Projects.projectsUrl ++ Projects.data_id data) []
               (Some None)) = Done r ->
  snd (Projects.updateProject arch m data log)
  = (log ++ [mkRequest PUT (Projects.projectsUrl ++ Projects.data_id data)
                       [] (Some None);
             mkRequest GET Projects.projectsUrl [] None])%list
  /\ Projects.data_id (fst (fst (Projects.updateProject arch m data log))) = "".
Proof.
  intros Hempty Hput.
  assert (U : Projects.unpackProject arch data = (None, "", None))
    by (unfold Projects.unpackProject; now rewrite Hempty).
  rewrite updateProject_step, U. cbn [fst snd]. rewrite Hput. split.
  - rewrite readProject_log, <- app_assoc. reflexivity.
  - now rewrite readProject_id.
Qed.

Lemma update_empty_privileges_drops_identity_witness :
  Projects.data_id
    (fst (fst (Projects.updateProject Arch64 Samples.stubProjects
                 (Projects.mkData "abc" "abc" "ABC" "" (Some []) (-1)
                    false false) [])))
  = "".
Proof.
  apply (update_empty_privileges_drops_identity Arch64 Samples.stubProjects
           (Projects.mkData "abc" "abc" "ABC" "" (Some []) (-1) false false)
           [] tt eq_refl eq_refl).
Defined.

(** X13: [deleteProject] sends exactly one request, the DELETE on the projects
    URL followed by the identity, and hands back the state as it received
    it, identity included, whether the DELETE failed (the error is the
    only diagnostic) or not (no diagnostics). *)
Theorem delete_project_keeps_state (m : Projects.Client)
  (data : Projects.ResourceData) (log : list (Request Projects.Body)) :
  snd (Projects.deleteProject m data log)
  = (log ++ [mkRequest DELETE (Projects.projectsUrl ++ Projects.data_id data)
                       [] None])%list
  /\ fst (fst (Projects.deleteProject m data log)) = data
  /\ (forall e,
        Projects.roundTrip m log
          (mkRequest DELETE (Projects.projectsUrl ++ Projects.data_id data)
                     [] None) = Failed e ->
        snd (fst (Projects.deleteProject m data log)) = FromErr e)
  /\ (forall r,
        Projects.roundTrip m log
          (mkRequest DELETE (Projects.projectsUrl ++ Projects.data_id data)
                     [] None) = Done r ->
        snd (fst (Projects.deleteProject m data log)) = []).
Proof.
  unfold Projects.deleteProject, bind, Projects.execute, ret.
  split; [| split; [| split]].
  - now destruct (Projects.roundTrip m log _).
  - now destruct (Projects.roundTrip m log _).
  - intros e H. now rewrite H.
  - intros r H. now rewrite H.
Qed.

Lemma delete_project_keeps_state_witness :
  snd (fst (Projects.deleteProject Samples.downProjects
              Samples.emptyPrivileges []))
  = ["connection refused"].
Proof.
  apply (proj1 (proj2 (proj2 (delete_project_keeps_state Samples.downProjects
                                Samples.emptyPrivileges [])))
           "connection refused" eq_refl).
Defined.

(** * Further properties of the membership resource *)

Lemma readProjectGroup_failed (m : Client) (data : ResourceData)
  (log : list (Request Body)) (e : string) :
  roundTrip m log (mkRequest GET projectGroupsUrl
                             (pathParamsOf (unpackProjectGroup data)) None)
  = Failed e ->
  readProjectGroup m data log
  = ((data, FromErr e),
     (log ++ [mkRequest GET projectGroupsUrl
                        (pathParamsOf (unpackProjectGroup data)) None])%list).
Proof.
  intros H. unfold readProjectGroup, bind, execute, ret. now rewrite H.
Qed.

Lemma readProjectGroup_log (m : Client) (data : ResourceData)
  (log : list (Request Body)) :
  snd (readProjectGroup m data log)
  = (log ++ [mkRequest GET projectGroupsUrl
                       (pathParamsOf (unpackProjectGroup data)) None])%list.
Proof.
  unfold readProjectGroup, bind, execute, ret.
  now destruct (roundTrip m log _).
Qed.

Lemma upsertProjectGroup_step (m : Client) (data : ResourceData)
  (log : list (Request Body)) :
  upsertProjectGroup m data log
  = match roundTrip m log
            (mkRequest PUT projectGroupsUrl
                       (pathParamsOf (unpackProjectGroup data))
                       (Some (unpackProjectGroup data))) with
    | Failed e =>
        ((data, FromErr e),
         (log ++ [mkRequest PUT projectGroupsUrl
                            (pathParamsOf (unpackProjectGroup data))
                            (Some (unpackProjectGroup data))])%list)
    | Done _ =>
        readProjectGroup m (SetId (Id (unpackProjectGroup data)) data)
          (log ++ [mkRequest PUT projectGroupsUrl
                             (pathParamsOf (unpackProjectGroup data))
                             (Some (unpackProjectGroup data))])%list
    end.
Proof.
  unfold upsertProjectGroup, bind, execute, ret.
  now destruct (roundTrip m log _).
Qed.

(** X14: The three ways [upsertProjectGroup] can end.  A failed PUT is the only
    request and leaves the state untouched.  After a successful PUT the
    identity is set and the same path is read: if that GET fails, the
    error is returned and the identity stays set; if it succeeds, the
    state keeps the local project key and takes name and roles from the
    response, so a response that repeats the configured name and roles
    leaves the configuration as it was. *)
Theorem upsert_project_group_outcomes (m : Client) (data : ResourceData)
  (log : list (Request Body)) :
  (forall e,
     roundTrip m log (mkRequest PUT projectGroupsUrl
                                (pathParamsOf (unpackProjectGroup data))
                                (Some (unpackProjectGroup data))) = Failed e ->
     upsertProjectGroup m data log
     = ((data, FromErr e),
        (log ++ [mkRequest PUT projectGroupsUrl
                           (pathParamsOf (unpackProjectGroup data))
                           (Some (unpackProjectGroup data))])%list))
  /\ (forall r,
        roundTrip m log (mkRequest PUT projectGroupsUrl
                                   (pathParamsOf (unpackProjectGroup data))
                                   (Some (unpackProjectGroup data))) = Done r ->
        snd (upsertProjectGroup m data log)
        = (log ++ [mkRequest PUT projectGroupsUrl
                             (pathParamsOf (unpackProjectGroup data))
                             (Some (unpackProjectGroup data));
                   mkRequest GET projectGroupsUrl
                             (pathParamsOf (unpackProjectGroup data)) None])%list
        /\ (forall e,
              roundTrip m
                (log ++ [mkRequest PUT projectGroupsUrl
                                   (pathParamsOf (unpackProjectGroup data))
                                   (Some (unpackProjectGroup data))])
                (mkRequest GET projectGroupsUrl
                           (pathParamsOf (unpackProjectGroup data)) None)
              = Failed e ->
              fst (upsertProjectGroup m data log)
              = (SetId (Id (unpackProjectGroup data)) data, FromErr e))
        /\ (forall resp,
              roundTrip m
                (log ++ [mkRequest PUT projectGroupsUrl
                                   (pathParamsOf (unpackProjectGroup data))
                                   (Some (unpackProjectGroup data))])
                (mkRequest GET projectGroupsUrl
                           (pathParamsOf (unpackProjectGroup data)) None)
              = Done resp ->
              fst (upsertProjectGroup m data log)
              = (mkData (Id (unpackProjectGroup data)) (project_key data)
                        (Name (intoProjectGroup m resp zeroProjectGroup))
                        (Roles (intoProjectGroup m resp zeroProjectGroup)),
                 [])
              /\ (Name (intoProjectGroup m resp zeroProjectGroup) = name data ->
                  Roles (intoProjectGroup m resp zeroProjectGroup) = roles data ->
                  fst (upsertProjectGroup m data log)
                  = (SetId (Id (unpackProjectGroup data)) data, [])))).
Proof.
  rewrite upsertProjectGroup_step. split.
  - intros e H. now rewrite H.
  - intros r H. rewrite H. split; [| split].
    + rewrite readProjectGroup_log, <- app_assoc. reflexivity.
    + intros e He.
      now rewrite (readProjectGroup_failed m
                     (SetId (Id (unpackProjectGroup data)) data) _ e He).
    + intros resp Hr.
      rewrite (readProjectGroup_done m
                 (SetId (Id (unpackProjectGroup data)) data) _ resp Hr).
      split; [reflexivity |]. intros Hn Hro. cbn. now rewrite Hn, Hro.
Qed.

Lemma upsert_project_group_outcomes_witness :
  upsertProjectGroup Samples.downGroups Samples.devs []
  = ((Samples.devs, ["connection refused"]),
     [mkRequest PUT projectGroupsUrl [("projectKey", "abc"); ("name", "devs")]
        (Some (mkProjectGroup "abc" "devs" ["contributor"]))]).
Proof.
  apply (proj1 (upsert_project_group_outcomes Samples.downGroups Samples.devs [])
           "connection refused" eq_refl).
Defined.

(** ** What a successful import tells about the identifier *)

(** X16: The import either fails, with no state returned, or returns exactly
    one state and no error.  In the second case identity and roles are
    untouched, both parts are non-empty, the project key holds no colon,
    and the identifier is the project key, a colon and the name: the
    split is at the first colon and loses nothing. *)
Theorem import_sound (d : ResourceData) :
  ((exists msg, importForProjectKeyGroupName d = ([], Some msg))
   \/ (exists d', importForProjectKeyGroupName d = ([d'], None)))
  /\ (forall d', importForProjectKeyGroupName d = ([d'], None) ->
        data_id d' = data_id d /\ roles d' = roles d
        /\ project_key d' <> "" /\ name d' <> ""
        /\ any_chars is_colon (project_key d') = false
        /\ data_id d = project_key d' ++ ":" ++ name d').
Proof.
  destruct (first_colon (data_id d)) as [H | [p [n [E H]]]].
  - rewrite (import_no_colon d H). split; [left; eauto |].
    intros d' C. discriminate C.
  - rewrite (import_first_colon d p n E H).
    destruct (String.eqb p "") eqn:Hp; cbn [orb].
    + split; [left; eauto |]. intros d' C. discriminate C.
    + destruct (String.eqb n "") eqn:Hn.
      * split; [left; eauto |]. intros d' C. discriminate C.
      * split; [right; eauto |]. intros d' C. injection C as <-. cbn.
        apply String.eqb_neq in Hp. apply String.eqb_neq in Hn.
        repeat split; assumption.
Qed.

Lemma import_sound_witness :
  data_id (mkData "abc:dev:ops" "" "" ["r"])
  = project_key (mkData "abc:dev:ops" "abc" "dev:ops" ["r"]) ++ ":"
    ++ name (mkData "abc:dev:ops" "abc" "dev:ops" ["r"]).
Proof.
  apply (proj2 (import_sound (mkData "abc:dev:ops" "" "" ["r"]))
           (mkData "abc:dev:ops" "abc" "dev:ops" ["r"]) eq_refl).
Defined.

(** X17: Importing an identifier [p:n] and then reading addresses the
    membership of group [n] in project [p] and nothing else: one GET with
    exactly these path parameters; when it succeeds the state holds the
    imported identity and project key, and name and roles as they were
    loaded. *)
Theorem import_then_read (m : Client) (d : ResourceData)
  (log : list (Request Body)) (p n : string) :
  p <> "" -> n <> "" -> any_chars is_colon p = false ->
  data_id d = p ++ ":" ++ n ->
  exists d',
    importForProjectKeyGroupName d = ([d'], None)
    /\ snd (readProjectGroup m d' log)
       = (log ++ [mkRequest GET projectGroupsUrl
                            [("projectKey", p); ("name", n)] None])%list
    /\ forall resp,
         roundTrip m log (mkRequest GET projectGroupsUrl
                                    [("projectKey", p); ("name", n)] None)
         = Done resp ->
         fst (readProjectGroup m d' log)
         = (mkData (data_id d) p
                   (Name (intoProjectGroup m resp zeroProjectGroup))
                   (Roles (intoProjectGroup m resp zeroProjectGroup)), []).
Proof.
  intros Hp Hn Hc E. exists (mkData (data_id d) p n (roles d)).
  split; [| split].
  - rewrite (import_first_colon d p n E Hc).
    apply String.eqb_neq in Hp. apply String.eqb_neq in Hn. now rewrite Hp, Hn.
  - unfold readProjectGroup, bind, execute, ret.
    now destruct (roundTrip m log _).
  - intros resp Hr.
    now rewrite (readProjectGroup_done m (mkData (data_id d) p n (roles d))
                   log resp Hr).
Qed.

Lemma import_then_read_witness :
  exists d',
    importForProjectKeyGroupName (mkData "abc:devs" "" "" []) = ([d'], None)
    /\ snd (readProjectGroup Samples.stubGroups d' [])
       = [mkRequest GET projectGroupsUrl
                    [("projectKey", "abc"); ("name", "devs")] None].
Proof.
  destruct (import_then_read Samples.stubGroups (mkData "abc:devs" "" "" [])
              [] "abc" "devs") as [d' [I [L _]]];
    try discriminate; try reflexivity.
  exists d'. split; assumption.
Defined.

(** ** Project keys and membership identifiers *)

Lemma lower_alnum_not_colon (c : ascii) :
  lower_alnum c = true -> is_colon c = false.
Proof.
  unfold is_colon. intros H. destruct (Ascii.eqb c ":") eqn:E; [| reflexivity].
  apply Ascii.eqb_eq in E. subst c. discriminate H.
Qed.

Lemma all_excludes_any (f g : ascii -> bool) (s : string) :
  (forall c, f c = true -> g c = false) ->
  all_chars f s = true -> any_chars g s = false.
Proof.
  intros E. induction s as [| c s IH]; cbn; [reflexivity |].
  intros H. apply andb_true_iff in H. destruct H as [Hc Hs].
  now rewrite (E c Hc), (IH Hs).
Qed.

(** X18: A key accepted by the [key] validation of the project resource is
    non-empty and holds no colon.  So an identifier made of such a key, a
    colon and any non-empty name, colons in the name included, is
    imported as exactly that key and that name. *)
Theorem valid_key_imports (k n : string) (d : ResourceData) :
  Projects.keyValidate k = [] -> n <> "" ->
  data_id d = k ++ ":" ++ n ->
  k <> "" /\ any_chars is_colon k = false
  /\ importForProjectKeyGroupName d
     = ([mkData (data_id d) k n (roles d)], None).
Proof.
  intros V Hn E.
  assert (M : MatchString Projects.keyPattern k = true).
  { unfold Projects.keyValidate, Projects.StringMatch in V.
    destruct (MatchString Projects.keyPattern k); [reflexivity | discriminate]. }
  rewrite MatchString_key in M.
  apply andb_true_iff in M. destruct M as [M Hall].
  apply andb_true_iff in M. destruct M as [Hlo _]. apply Nat.leb_le in Hlo.
  assert (Hk : k <> "") by (intros ->; cbn in Hlo; lia).
  pose proof (all_excludes_any _ _ k lower_alnum_not_colon Hall) as Hc.
  split; [exact Hk |]. split; [exact Hc |].
  rewrite (import_first_colon d k n E Hc).
  apply String.eqb_neq in Hk. apply String.eqb_neq in Hn. now rewrite Hk, Hn.
Qed.

Lemma valid_key_imports_witness :
  importForProjectKeyGroupName (mkData "us1a:team:qa" "" "" [])
  = ([mkData "us1a:team:qa" "us1a" "team:qa" []], None).
Proof.
  apply (proj2 (proj2 (valid_key_imports "us1a" "team:qa"
                         (mkData "us1a:team:qa" "" "" [])
                         eq_refl ltac:(discriminate) eq_refl))).
Defined.

(** ** Reading a membership *)

(** X15: [readProjectGroup] issues exactly one request, the GET whose path
    parameters are the project key and the name of the state, and never
    changes the identity.  When the GET fails the state is returned
    untouched with the error.  When it succeeds there are no diagnostics
    and the roles of the previous state are forgotten: two states that
    agree on identity, project key and name are read into the same
    state. *)
Theorem read_project_group_outcomes (m : Client) (data : ResourceData)
  (log : list (Request Body)) :
  snd (readProjectGroup m data log)
  = (log ++ [mkRequest GET projectGroupsUrl
                       [("projectKey", project_key data); ("name", name data)]
                       None])%list
  /\ data_id (fst (fst (readProjectGroup m data log))) = data_id data
  /\ (forall e,
        roundTrip m log
          (mkRequest GET projectGroupsUrl
                     [("projectKey", project_key data); ("name", name data)]
                     None) = Failed e ->
        fst (readProjectGroup m data log) = (data, FromErr e))
  /\ (forall resp,
        roundTrip m log
          (mkRequest GET projectGroupsUrl
                     [("projectKey", project_key data); ("name", name data)]
                     None) = Done resp ->
        snd (fst (readProjectGroup m data log)) = []
        /\ forall other,
             data_id other = data_id data ->
             project_key other = project_key data ->
             name other = name data ->
             readProjectGroup m other log = readProjectGroup m data log).
Proof.
  split; [apply readProjectGroup_log |]. split; [apply readProjectGroup_id |].
  split.
  - intros e H. now rewrite (readProjectGroup_failed m data log e H).
  - intros resp H. rewrite (readProjectGroup_done m data log resp H).
    split; [reflexivity |]. intros other Hid Hpk Hn.
    assert (H' : roundTrip m log
                   (mkRequest GET projectGroupsUrl
                      (pathParamsOf (unpackProjectGroup other)) None)
                 = Done resp).
    { unfold pathParamsOf, unpackProjectGroup. cbn. now rewrite Hpk, Hn. }
    rewrite (readProjectGroup_done m other log resp H').
    unfold packProjectGroup, pathParamsOf, unpackProjectGroup. cbn.
    now rewrite Hid, Hpk, Hn.
Qed.

Lemma read_project_group_outcomes_witness :
  readProjectGroup Samples.stubGroups
    (mkData "abc:devs" "abc" "devs" ["viewer"; "developer"]) []
  = readProjectGroup Samples.stubGroups Samples.devs [].
Proof.
  destruct (proj2 (proj2 (proj2 (read_project_group_outcomes Samples.stubGroups
                                   Samples.devs []))) tt eq_refl) as [_ H].
  apply H; reflexivity.
Defined.
